(** * Fine-tuning export pipeline: inference records to training examples

    A shallow embedding of the two supervised fine-tuning notebooks
    (the Fireworks recipe and the OpenAI metrics recipe): the feedback-join
    query, the content block normalizer [render_message], the output
    renderer [render_output], the example assembler
    [sample_to_conversational_messages] / [sample_to_openai_messages] and the
    episode-level train/validation split.

    Python values are modelled as follows.
    - A JSON value (the result of [json.loads], and every dict the notebooks
      build) is a [Json] tree; a dict is an association list in insertion
      order.
    - A function that may return [None] and may raise has type
      [Exc (option A)]: [Val None] is the "drop this example" signal,
      [Raise e] an uncaught exception.
    - The notebook globals ([function_type], [system_template_path],
      [DROP_INVALID_MESSAGES]) and the external collaborators
      ([env.render_template], [json.dumps], [np.random]) are section
      variables.  A global name that was never assigned is [None].
    - [warnings.warn] has no effect on any returned value and is left out. *)

From Stdlib Require Import List String Ascii Bool Arith ZArith QArith Lia.
From Stdlib Require Import Permutation Qround.
Import ListNotations.

Local Open Scope string_scope.
Local Open Scope list_scope.
Set Warnings "-register-all".

(** ** Python values and exceptions *)

Inductive Json : Type :=
| JNull
| JBool (b : bool)
| JNum (q : Q)
| JStr (s : string)
| JArr (items : list Json)
| JObj (fields : list (string * Json)).

Inductive PyError : Type :=
| AssertionError (msg : string)
| NameError (name : string)
| KeyError (key : string)
| TypeError
| ValueError (msg : string)
| TemplateError (msg : string).

Inductive Exc (A : Type) : Type :=
| Val (a : A)
| Raise (e : PyError).

Arguments Val {A} a.
Arguments Raise {A} e.

Definition bind {A B : Type} (c : Exc A) (k : A -> Exc B) : Exc B :=
  match c with
  | Val a => k a
  | Raise e => Raise e
  end.

Notation "x <- c ;; k" := (bind c (fun x => k))
  (at level 61, c at next level, right associativity).

(** [d.get(key)]: the first binding of [key]. *)
Fixpoint assoc (key : string) (fields : list (string * Json)) : option Json :=
  match fields with
  | [] => None
  | (k, v) :: rest => if (k =? key)%string then Some v else assoc key rest
  end.

(** [len(x)] for the JSON values that have a length. *)
Definition py_len (x : Json) : Exc nat :=
  match x with
  | JStr s => Val (String.length s)
  | JArr items => Val (List.length items)
  | JObj fields => Val (List.length fields)
  | _ => Raise TypeError
  end.

(** Truth value of a list: non-empty. *)
Definition truthy {A : Type} (l : list A) : bool :=
  match l with
  | [] => false
  | _ :: _ => true
  end.

(** The separator of ["\n".join]. *)
Definition newline : string := String (ascii_of_nat 10) "".

(** ** Data model of the stored inferences *)

(** A content block of an input message.  [Unknown ty] stands for a block
    whose ["type"] is none of the five known tags. *)
Inductive ContentBlock : Type :=
| Text (value : Json)
| RawText (value : string)
| Thought (text : string)
| ToolCall (id name : string) (arguments : Json)
| ToolResult (id result : string)
| Unknown (type : string).

Record Message : Type := mkMessage {
  role : string;
  content : list ContentBlock
}.

(** A content block of a chat output; text blocks carry ["text"] there. *)
Inductive OutputBlock : Type :=
| OText (text : string)
| OThought (text : string)
| OToolCall (id name : string) (arguments : Json)
| OOther (type : string).

(** The parsed output column: a dict for JSON functions, a list of blocks
    for chat functions. *)
Inductive Output : Type :=
| JsonOutput (fields : list (string * Json))
| ChatOutput (blocks : list OutputBlock).

(** The parsed input column: [system] is [None] when the key is absent. *)
Record FunctionInput : Type := mkFunctionInput {
  system : option Json;
  messages : list Message
}.

(** ** Dict literals shared by both notebooks *)

Definition text_part (s : string) : Json :=
  JObj [("type", JStr "text"); ("text", JStr s)].

Definition think (text : string) : string :=
  "<think>" ++ text ++ "</think>".

Definition tool_message (id result : string) : Json :=
  JObj [("role", JStr "tool"); ("tool_call_id", JStr id); ("content", JStr result)].

Definition tool_call_dict (dumps : Json -> string) (id name : string) (arguments : Json) : Json :=
  JObj [("function", JObj [("arguments", JStr (dumps arguments)); ("name", JStr name)]);
        ("id", JStr id);
        ("type", JStr "function")].

Definition system_dict (c : Json) : Json :=
  JObj [("role", JStr "system"); ("content", c)].

(** [{"role": role}] followed by the optional ["content"] and
    ["tool_calls"] assignments. *)
Definition role_dict (role : string) (c : option Json) (tool_calls : list Json) : Json :=
  JObj ([("role", JStr role)]
        ++ match c with Some v => [("content", v)] | None => [] end
        ++ (if truthy tool_calls then [("tool_calls", JArr tool_calls)] else [])).

(** [{"messages": rendered_messages}] *)
Definition example (rendered_messages : list Json) : Json :=
  JObj [("messages", JArr rendered_messages)].

(** [env.render_template(name, **kwargs)]: the keyword expansion needs a
    mapping. *)
Definition render_template_kw (render_template : string -> list (string * Json) -> Exc string)
    (name : string) (kwargs : Json) : Exc string :=
  match kwargs with
  | JObj fields => render_template name fields
  | _ => Raise TypeError
  end.

(** Reading a global name: [NameError] when it was never assigned. *)
Definition read_global (name : string) (g : option string) : Exc string :=
  match g with
  | Some p => Val p
  | None => Raise (NameError name)
  end.

(** Truth value of a [pathlib.Path]: it defines neither [__bool__] nor
    [__len__], so every path is true. *)
Definition path_truthy (p : string) : bool := true.

(** The system message of both assemblers:
<<
    system = function_input.get("system", {})
    if len(system) > 0 or system_template_path:
        if system_template_path: ... render_template("system", **system)
        else: ... system
>> *)
Definition system_messages (render_template : string -> list (string * Json) -> Exc string)
    (system_template_path : option string) (function_input : FunctionInput) : Exc (list Json) :=
  let system := match system function_input with Some s => s | None => JObj [] end in
  n <- py_len system ;;
  cond <- (if (0 <? n)%nat then Val true
           else (p <- read_global "system_template_path" system_template_path ;;
                 Val (path_truthy p))) ;;
  if (cond : bool) then
    p <- read_global "system_template_path" system_template_path ;;
    if path_truthy p then
      system_message <- render_template_kw render_template "system" system ;;
      Val [system_dict (JStr system_message)]
    else Val [system_dict system]
  else Val [].

(** ** The Fireworks notebook *)

Module Fireworks.

Section Notebook.

Variable render_template : string -> list (string * Json) -> Exc string.
Variable json_dumps : Json -> string.
Variable function_type : string.
Variable system_template_path : option string.
Variable DROP_INVALID_MESSAGES : bool.

(** [content_block["type"] not in ["text", "raw_text"]] *)
Definition not_text_or_raw_text (b : ContentBlock) : bool :=
  match b with
  | Text _ | RawText _ => false
  | _ => true
  end.

(** The tail of [render_message], after the loop.  The accumulator
    [content] holds the ["text"] of each [{"type": "text", "text": _}]
    part. *)
Definition finish_message (role : string) (content : list string)
    (tool_calls rendered_messages : list Json) : list Json :=
  if truthy content || truthy tool_calls then
    rendered_messages
    ++ [role_dict role
          (if truthy content then Some (JStr (String.concat newline content)) else None)
          tool_calls]
  else rendered_messages.

(** The [for content_block in message["content"]] loop. *)
Fixpoint render_message_loop (role : string) (blocks : list ContentBlock)
    (content : list string) (tool_calls rendered_messages : list Json)
    : Exc (option (list Json)) :=
  match blocks with
  | [] => Val (Some (finish_message role content tool_calls rendered_messages))
  | content_block :: rest =>
      if not_text_or_raw_text content_block && DROP_INVALID_MESSAGES then Val None
      else
        match content_block with
        | Text value =>
            parsed_content <- match value with
                              | JStr s => Val s
                              | _ => render_template_kw render_template role value
                              end ;;
            render_message_loop role rest (content ++ [parsed_content]) tool_calls rendered_messages
        | RawText value =>
            render_message_loop role rest (content ++ [value]) tool_calls rendered_messages
        | Thought text =>
            render_message_loop role rest (content ++ [think text]) tool_calls rendered_messages
        | ToolCall id name arguments =>
            if (role =? "assistant") && negb DROP_INVALID_MESSAGES then
              render_message_loop role rest content
                (tool_calls ++ [tool_call_dict json_dumps id name arguments]) rendered_messages
            else Val None
        | ToolResult id result =>
            if (role =? "user") && negb DROP_INVALID_MESSAGES then
              render_message_loop role rest content tool_calls
                (rendered_messages ++ [tool_message id result])
            else Val None
        | Unknown _ => Val None
        end
  end.

Definition render_message (message : Message) : Exc (option (list Json)) :=
  let role := role message in
  if (role =? "user") || (role =? "assistant") then
    render_message_loop role (content message) [] [] []
  else Raise (AssertionError ("Invalid role: " ++ role)).

(** The tail of [render_output]: one assistant message. *)
Definition finish_output (content : list string) (tool_calls : list Json) : Json :=
  role_dict "assistant"
    (if truthy content then Some (JStr (String.concat newline content)) else None)
    tool_calls.

(** The [for content_block in output] loop of a chat function. *)
Fixpoint render_output_loop (blocks : list OutputBlock) (content : list string)
    (tool_calls : list Json) : option Json :=
  match blocks with
  | [] => Some (finish_output content tool_calls)
  | content_block :: rest =>
      if (match content_block with OText _ => false | _ => true end) && DROP_INVALID_MESSAGES
      then None
      else
        match content_block with
        | OText text => render_output_loop rest (content ++ [text]) tool_calls
        | OThought text => render_output_loop rest (content ++ [think text]) tool_calls
        | OToolCall id name arguments =>
            if negb DROP_INVALID_MESSAGES then
              render_output_loop rest content (tool_calls ++ [tool_call_dict json_dumps id name arguments])
            else None
        | OOther _ => None
        end
  end.

Definition render_output (output : Output) : Exc (option Json) :=
  if function_type =? "json" then
    match output with
    | JsonOutput fields =>
        match assoc "raw" fields with
        | Some raw => Val (Some (JObj [("role", JStr "assistant"); ("content", raw)]))
        | None => Raise (KeyError "raw")
        end
    | ChatOutput _ => Raise TypeError
    end
  else if function_type =? "chat" then
    match output with
    | ChatOutput blocks => Val (render_output_loop blocks [] [])
    | JsonOutput [] => Val (Some (finish_output [] []))
    | JsonOutput (_ :: _) => Raise TypeError
    end
  else Raise (ValueError ("Unsupported function type: " ++ function_type)).

(** A row of the demonstration query, with its JSON columns parsed. *)
Record Sample : Type := mkSample {
  input : FunctionInput;
  value : Output
}.

(** The [for message in function_input["messages"]] loop. *)
Fixpoint input_messages_loop (msgs : list Message) (rendered_messages : list Json)
    : Exc (option (list Json)) :=
  match msgs with
  | [] => Val (Some rendered_messages)
  | message :: rest =>
      rendered_message <- render_message message ;;
      match rendered_message with
      | None => Val None
      | Some ms => input_messages_loop rest (rendered_messages ++ ms)
      end
  end.

Definition sample_to_conversational_messages (sample : Sample) : Exc (option Json) :=
  let function_input := input sample in
  rendered_messages <- system_messages render_template system_template_path function_input ;;
  r <- input_messages_loop (messages function_input) rendered_messages ;;
  match r with
  | None => Val None
  | Some rendered_messages =>
      rendered_output <- render_output (value sample) ;;
      match rendered_output with
      | None => Val None
      | Some o => Val (Some (example (rendered_messages ++ [o])))
      end
  end.

End Notebook.

End Fireworks.


(** ** The OpenAI notebook *)

Module OpenAI.

(** *** Querying the inferences and the feedback *)

Module Query.

Record InferenceRow : Type := mkInferenceRow {
  id : string;
  function_name : string;
  variant_name : string;
  input : string;
  output : string;
  episode_id : string
}.

(** A row of a feedback table; a boolean value is 0 or 1. *)
Record FeedbackRow : Type := mkFeedbackRow {
  target_id : string;
  metric_name : string;
  value : Q;
  timestamp : Z
}.

(** A row of the data frame [df]. *)
Record DfRow : Type := mkDfRow {
  df_variant_name : string;
  df_input : string;
  df_output : string;
  df_value : Q;
  df_episode_id : string
}.

Section Cells.

Variable ChatInference JsonInference : list InferenceRow.
Variable FloatMetricFeedback BooleanMetricFeedback : list FeedbackRow.
Variable function_type : string.
Variable metric_type metric_level metric_optimize : string.
Variable FUNCTION_NAME METRIC_NAME : string.
Variable FLOAT_METRIC_THRESHOLD : Q.
Variable MAX_SAMPLES : nat.

Definition inference_table_name : Exc string :=
  if function_type =? "chat" then Val "ChatInference"
  else if function_type =? "json" then Val "JsonInference"
  else Raise (ValueError ("Unsupported function type: " ++ function_type)).

Definition feedback_table_name : Exc string :=
  if metric_type =? "float" then Val "FloatMetricFeedback"
  else if metric_type =? "boolean" then Val "BooleanMetricFeedback"
  else Raise (ValueError ("Unsupported metric type: " ++ metric_type)).

Definition inference_join_key : Exc string :=
  if metric_level =? "episode" then Val "episode_id"
  else if metric_level =? "inference" then Val "id"
  else Raise (ValueError ("Unsupported metric level: " ++ metric_level)).

Definition threshold : Q :=
  if metric_type =? "float" then FLOAT_METRIC_THRESHOLD else 0.5%Q.

Definition comparison_operator : string :=
  if metric_optimize =? "max" then ">=" else "<=".

(** The tables and the column the interpolated names stand for. *)
Definition inference_table (name : string) : list InferenceRow :=
  if name =? "ChatInference" then ChatInference else JsonInference.

Definition feedback_table (name : string) : list FeedbackRow :=
  if name =? "FloatMetricFeedback" then FloatMetricFeedback else BooleanMetricFeedback.

Definition join_column (key : string) (i : InferenceRow) : string :=
  if key =? "episode_id" then episode_id i else id i.

(** [value {comparison_operator} %(threshold)s] *)
Definition compare_value (op : string) (v t : Q) : bool :=
  if op =? ">=" then Qle_bool t v else Qle_bool v t.

(** The [WHERE] clause of the subquery. *)
Definition feedback_where (r : FeedbackRow) : bool :=
  (metric_name r =? METRIC_NAME) && compare_value comparison_operator (value r) threshold.

(** [ROW_NUMBER() OVER (PARTITION BY target_id ORDER BY timestamp DESC)]:
    one more than the number of rows of the same partition that sort before
    the row.  Rows with equal timestamps keep their table order. *)
Definition row_number (seen : list FeedbackRow) (r : FeedbackRow) (rest : list FeedbackRow) : nat :=
  S (List.length (filter (fun x => (target_id x =? target_id r) && (timestamp r <=? timestamp x)%Z) seen)
     + List.length (filter (fun x => (target_id x =? target_id r) && (timestamp r <? timestamp x)%Z) rest)).

Fixpoint number_rows (seen rows : list FeedbackRow) : list (FeedbackRow * nat) :=
  match rows with
  | [] => []
  | r :: rest => (r, row_number seen r rest) :: number_rows (seen ++ [r]) rest
  end.

(** The subquery [f]: the filtered feedback rows with their [rn]. *)
Definition subquery (feedback : list FeedbackRow) : list (FeedbackRow * nat) :=
  number_rows [] (filter feedback_where feedback).

(** [ON i.{inference_join_key} = f.target_id and f.rn = 1] *)
Definition join_on (key : string) (i : InferenceRow) (f : FeedbackRow * nat) : bool :=
  (join_column key i =? target_id (fst f)) && (snd f =? 1)%nat.

Definition select_columns (p : InferenceRow * (FeedbackRow * nat)) : DfRow :=
  let (i, f) := p in
  mkDfRow (variant_name i) (input i) (output i) (value (fst f)) (episode_id i).

(** The query without its [LIMIT]: join, [WHERE], [SELECT]. *)
Definition selected (inferences : list InferenceRow) (feedback : list FeedbackRow)
    (key : string) : list DfRow :=
  map select_columns
    (filter (fun p => function_name (fst p) =? FUNCTION_NAME)
       (flat_map (fun i => map (pair i) (filter (join_on key i) (subquery feedback))) inferences)).

Definition run_query (inferences : list InferenceRow) (feedback : list FeedbackRow)
    (key : string) : list DfRow :=
  firstn MAX_SAMPLES (selected inferences feedback key).

(** [df = clickhouse_client.query_df(query, params)] after the cells that
    resolve the two table names and the join key. *)
Definition df : Exc (list DfRow) :=
  itn <- inference_table_name ;;
  ftn <- feedback_table_name ;;
  key <- inference_join_key ;;
  Val (run_query (inference_table itn) (feedback_table ftn) key).

End Cells.

End Query.

(** *** Rendering the inputs *)

Section Notebook.

Variable render_template : string -> list (string * Json) -> Exc string.
Variable json_dumps : Json -> string.
Variable function_type : string.
Variable system_template_path : option string.

(** The tail of [render_message], after the loop.  The accumulator
    [content] holds the ["text"] of each [{"type": "text", "text": _}]
    part. *)
Definition finish_message (role : string) (content : list string)
    (tool_calls rendered_messages : list Json) : list Json :=
  if truthy content || truthy tool_calls then
    rendered_messages
    ++ [role_dict role
          (if truthy content then Some (JArr (map text_part content)) else None)
          tool_calls]
  else rendered_messages.

(** The [for content_block in message["content"]] loop. *)
Fixpoint render_message_loop (role : string) (blocks : list ContentBlock)
    (content : list string) (tool_calls rendered_messages : list Json)
    : Exc (option (list Json)) :=
  match blocks with
  | [] => Val (Some (finish_message role content tool_calls rendered_messages))
  | content_block :: rest =>
      match content_block with
      | Text value =>
          parsed_content <- match value with
                            | JStr s => Val s
                            | _ => render_template_kw render_template role value
                            end ;;
          render_message_loop role rest (content ++ [parsed_content]) tool_calls rendered_messages
      | RawText value =>
          render_message_loop role rest (content ++ [value]) tool_calls rendered_messages
      | Thought text =>
          render_message_loop role rest (content ++ [think text]) tool_calls rendered_messages
      | ToolCall id name arguments =>
          if role =? "assistant" then
            render_message_loop role rest content
              (tool_calls ++ [tool_call_dict json_dumps id name arguments]) rendered_messages
          else Val None
      | ToolResult id result =>
          if role =? "user" then
            render_message_loop role rest content tool_calls
              (rendered_messages ++ [tool_message id result])
          else Val None
      | Unknown _ => Val None
      end
  end.

Definition render_message (message : Message) : Exc (option (list Json)) :=
  let role := role message in
  if (role =? "user") || (role =? "assistant") then
    render_message_loop role (content message) [] [] []
  else Raise (AssertionError ("Invalid role: " ++ role)).

(** The tail of [render_output]: one assistant message. *)
Definition finish_output (content : list string) (tool_calls : list Json) : Json :=
  role_dict "assistant"
    (if truthy content then Some (JArr (map text_part content)) else None)
    tool_calls.

(** The [for content_block in output] loop of a chat function. *)
Fixpoint render_output_loop (blocks : list OutputBlock) (content : list string)
    (tool_calls : list Json) : option Json :=
  match blocks with
  | [] => Some (finish_output content tool_calls)
  | content_block :: rest =>
      match content_block with
      | OText text => render_output_loop rest (content ++ [text]) tool_calls
      | OThought text => render_output_loop rest (content ++ [think text]) tool_calls
      | OToolCall id name arguments =>
          render_output_loop rest content (tool_calls ++ [tool_call_dict json_dumps id name arguments])
      | OOther _ => None
      end
  end.

Definition render_output (output : Output) : Exc (option Json) :=
  if function_type =? "json" then
    match output with
    | JsonOutput fields =>
        match assoc "raw" fields with
        | Some raw => Val (Some (JObj [("role", JStr "assistant"); ("content", raw)]))
        | None => Raise (KeyError "raw")
        end
    | ChatOutput _ => Raise TypeError
    end
  else if function_type =? "chat" then
    match output with
    | ChatOutput blocks => Val (render_output_loop blocks [] [])
    | JsonOutput [] => Val (Some (finish_output [] []))
    | JsonOutput (_ :: _) => Raise TypeError
    end
  else Raise (ValueError ("Unsupported function type: " ++ function_type)).

(** A row of [df], with its JSON columns parsed. *)
Record Sample : Type := mkSample {
  input : FunctionInput;
  output : Output
}.

(** The [for message in function_input["messages"]] loop; the message is
    rendered a second time for [extend]. *)
Fixpoint input_messages_loop (msgs : list Message) (rendered_messages : list Json)
    : Exc (option (list Json)) :=
  match msgs with
  | [] => Val (Some rendered_messages)
  | message :: rest =>
      rendered_message <- render_message message ;;
      match rendered_message with
      | None => Val None
      | Some _ =>
          again <- render_message message ;;
          match again with
          | None => Raise TypeError
          | Some ms => input_messages_loop rest (rendered_messages ++ ms)
          end
      end
  end.

Definition sample_to_openai_messages (sample : Sample) : Exc (option Json) :=
  let function_input := input sample in
  rendered_messages <- system_messages render_template system_template_path function_input ;;
  r <- input_messages_loop (messages function_input) rendered_messages ;;
  match r with
  | None => Val None
  | Some rendered_messages =>
      rendered_output <- render_output (output sample) ;;
      match rendered_output with
      | None => Val None
      | Some o => Val (Some (example (rendered_messages ++ [o])))
      end
  end.

End Notebook.

(** *** Splitting into training and validation sets *)

Module Split.

(** A row of [df] after rendering: the columns the split reads. *)
Record Row : Type := mkRow {
  episode_id : string;
  openai_messages : Json
}.

Record SplitResult : Type := mkSplitResult {
  train_episode_ids : list string;
  val_episode_ids : list string;
  train_df : list Row;
  val_df : list Row
}.

(** [Series.unique()]: the distinct values in order of first appearance. *)
Fixpoint unique (ids : list string) : list string :=
  match ids with
  | [] => []
  | x :: rest => x :: filter (fun y => negb (y =? x)) (unique rest)
  end.

(** [int(x)]: truncation towards zero.  The product is computed exactly on
    rationals; the rounding of binary floating point is not modelled. *)
Definition py_int (x : Q) : Z := Z.quot (Qnum x) (Zpos (Qden x)).

(** The position a slice bound [k] denotes in a sequence of length [n]:
    a negative bound counts from the end, and bounds are clamped. *)
Definition slice_bound (n : nat) (k : Z) : nat :=
  if (k <? 0)%Z then Z.to_nat (Z.of_nat n + k) else Z.to_nat k.

(** [a[:k]] and [a[k:]] *)
Definition slice_to {A : Type} (a : list A) (k : Z) : list A :=
  firstn (slice_bound (List.length a) k) a.

Definition slice_from {A : Type} (a : list A) (k : Z) : list A :=
  skipn (slice_bound (List.length a) k) a.

(** [Series.isin(values)] on one value. *)
Definition isin (x : string) (values : list string) : bool :=
  existsb (String.eqb x) values.

Section Cell.

(** The global generator of [np.random]: [seed] replaces its state,
    [shuffle] returns the shuffled array and the next state. *)
Variable RandomState : Type.
Variable seed : Z -> RandomState.
Variable shuffle : RandomState -> list string -> list string * RandomState.
Variable VAL_FRACTION : Q.

(** The split cell, run with the generator in state [rng]. *)
Definition split_cell (rng : RandomState) (df : list Row) : SplitResult * RandomState :=
  let unique_episode_ids := unique (map episode_id df) in
  let rng := seed 42 in
  let (unique_episode_ids, rng) := shuffle rng unique_episode_ids in
  let split_index :=
    py_int (inject_Z (Z.of_nat (List.length unique_episode_ids)) * (1 - VAL_FRACTION)) in
  let train_episode_ids := slice_to unique_episode_ids split_index in
  let val_episode_ids := slice_from unique_episode_ids split_index in
  let train_df := filter (fun r => isin (episode_id r) train_episode_ids) df in
  let val_df := filter (fun r => isin (episode_id r) val_episode_ids) df in
  (mkSplitResult train_episode_ids val_episode_ids train_df val_df, rng).

End Cell.

End Split.

End OpenAI.

(** ** Vocabulary of the statements *)

(** The blocks that contribute text to a message. *)
Definition text_bearing (b : ContentBlock) : bool :=
  match b with
  | Text _ | RawText _ | Thought _ => true
  | _ => false
  end.

(** The text a text-bearing block stands for in a message of role [role]. *)
Definition rendered_text (render_template : string -> list (string * Json) -> Exc string)
    (role : string) (b : ContentBlock) : Exc string :=
  match b with
  | Text (JStr s) => Val s
  | Text v => render_template_kw render_template role v
  | RawText s => Val s
  | Thought t => Val (think t)
  | _ => Val ""
  end.

(** The standalone [tool] messages of the tool results of a block list, in
    source order. *)
Definition tool_results (blocks : list ContentBlock) : list Json :=
  flat_map (fun b => match b with
                     | ToolResult id result => [tool_message id result]
                     | _ => []
                     end) blocks.

(** The blocks a [user] message takes without a template: literal text,
    raw text, a thought, a tool result. *)
Definition plain_user_block (b : ContentBlock) : bool :=
  match b with
  | Text (JStr _) | RawText _ | Thought _ | ToolResult _ _ => true
  | _ => false
  end.

(** The texts of the text-bearing blocks among plain blocks, in source
    order. *)
Definition plain_texts (blocks : list ContentBlock) : list string :=
  flat_map (fun b => match b with
                     | Text (JStr s) => [s]
                     | RawText s => [s]
                     | Thought t => [think t]
                     | _ => []
                     end) blocks.

(** The ["content"] entry of a rendered message. *)
Definition content_of (m : Json) : option Json :=
  match m with
  | JObj fields => assoc "content" fields
  | _ => None
  end.

(** The ["role"] entry of a rendered message. *)
Definition role_of (m : Json) : option Json :=
  match m with
  | JObj fields => assoc "role" fields
  | _ => None
  end.

(** A message is not the cause of a drop when removing one of its blocks
    leaves the drop in place. *)
Definition never_drops_on (render : Message -> Exc (option (list Json)))
    (b : ContentBlock) : Prop :=
  forall role pre post,
    render (mkMessage role (pre ++ b :: post)) = Val None ->
    render (mkMessage role (pre ++ post)) = Val None.

(** The loop over the input messages of both assemblers, for any
    normalizer [render]. *)
Fixpoint messages_loop (render : Message -> Exc (option (list Json)))
    (msgs : list Message) (rendered_messages : list Json) : Exc (option (list Json)) :=
  match msgs with
  | [] => Val (Some rendered_messages)
  | message :: rest =>
      match render message with
      | Val (Some ms) => messages_loop render rest (rendered_messages ++ ms)
      | Val None => Val None
      | Raise e => Raise e
      end
  end.

(** What an assembler does once the system message is resolved and the
    input messages went through [messages_loop]. *)
Definition assemble (sys : Exc (list Json)) (render : Message -> Exc (option (list Json)))
    (msgs : list Message) (out : Exc (option Json)) : Exc (option Json) :=
  rendered_messages <- sys ;;
  r <- messages_loop render msgs rendered_messages ;;
  match r with
  | None => Val None
  | Some rendered_messages =>
      rendered_output <- out ;;
      match rendered_output with
      | None => Val None
      | Some o => Val (Some (example (rendered_messages ++ [o])))
      end
  end.

(** The four parts of the all-or-nothing rule, for a system message [sys],
    a normalizer [render], input messages [msgs], a rendered output [out]
    and the result [res] of the assembler. *)
Definition all_or_nothing (sys : Exc (list Json)) (render : Message -> Exc (option (list Json)))
    (msgs : list Message) (out : Exc (option Json)) (res : Exc (option Json)) : Prop :=
  ((exists m, In m msgs /\ render m = Val None) \/ out = Val None ->
   forall ex, res <> Val (Some ex))
  /\ (forall ex,
        res = Val (Some ex) <->
        exists s rendered o,
          sys = Val s /\
          Forall2 (fun m r => render m = Val (Some r)) msgs rendered /\
          out = Val (Some o) /\
          ex = example (s ++ List.concat rendered ++ [o]))
  /\ (forall s,
        sys = Val s ->
        Forall (fun m => exists x, render m = Val x) msgs ->
        (exists m, In m msgs /\ render m = Val None) ->
        res = Val None)
  /\ (forall s rendered,
        sys = Val s ->
        Forall2 (fun m r => render m = Val (Some r)) msgs rendered ->
        out = Val None ->
        res = Val None).

(** The shuffled distinct episode ids of a data frame. *)
Definition shuffled_ids {RandomState : Type} (seed : Z -> RandomState)
    (shuffle : RandomState -> list string -> list string * RandomState)
    (df : list OpenAI.Split.Row) : list string :=
  fst (shuffle (seed 42%Z) (OpenAI.Split.unique (map OpenAI.Split.episode_id df))).

(** A feedback row counts for the query when it is of the metric and its
    value meets the threshold. *)
Definition passing (metric op : string) (thr : Q) (f : OpenAI.Query.FeedbackRow) : Prop :=
  OpenAI.Query.metric_name f = metric /\ OpenAI.Query.compare_value op (OpenAI.Query.value f) thr = true.

(** [f] is a most recent row of its target among the rows that satisfy
    [P]. *)
Definition latest_among (P : OpenAI.Query.FeedbackRow -> Prop)
    (feedback : list OpenAI.Query.FeedbackRow) (f : OpenAI.Query.FeedbackRow) : Prop :=
  In f feedback /\ P f /\
  forall f', In f' feedback -> P f' ->
             OpenAI.Query.target_id f' = OpenAI.Query.target_id f ->
             (OpenAI.Query.timestamp f' <= OpenAI.Query.timestamp f)%Z.

(** The row the query returns for an inference and a feedback row. *)
Definition joined_row (i : OpenAI.Query.InferenceRow) (f : OpenAI.Query.FeedbackRow)
    : OpenAI.Query.DfRow :=
  OpenAI.Query.mkDfRow (OpenAI.Query.variant_name i) (OpenAI.Query.input i)
    (OpenAI.Query.output i) (OpenAI.Query.value f) (OpenAI.Query.episode_id i).

(** C1 as it is stated: every returned row belongs to an inference whose
    most recent feedback row for the metric meets the threshold. *)
Definition selects_by_latest_feedback (rows : list OpenAI.Query.DfRow)
    (inferences : list OpenAI.Query.InferenceRow) (feedback : list OpenAI.Query.FeedbackRow)
    (key metric op : string) (thr : Q) : Prop :=
  forall row, In row rows ->
    exists i f,
      In i inferences /\
      latest_among (fun f => OpenAI.Query.metric_name f = metric) feedback f /\
      OpenAI.Query.target_id f = OpenAI.Query.join_column key i /\
      OpenAI.Query.compare_value op (OpenAI.Query.value f) thr = true /\
      row = joined_row i f.

(** Stand-ins for the external collaborators in the worked examples. *)
Module Demo.

Definition render_template (name : string) (fields : list (string * Json)) : Exc string :=
  Val ("rendered " ++ name)%string.

Definition json_dumps (j : Json) : string := "{}".

Definition hi_then_tool_result : Message :=
  mkMessage "user" [RawText "Hi"; ToolResult "t1" "42"].

Definition image_message : Message :=
  mkMessage "user" [RawText "Look"; Unknown "image"].

Definition input_with_image : FunctionInput :=
  mkFunctionInput (Some (JObj [("topic", JStr "birds")])) [hi_then_tool_result; image_message].

Definition json_output : Output :=
  JsonOutput [("raw", JStr "{}"); ("parsed", JObj [])].

(** One inference with two feedback rows of the metric: 0.9 at time 1,
    then 0.1 at time 2. *)
Definition inference : OpenAI.Query.InferenceRow :=
  OpenAI.Query.mkInferenceRow "i1" "extract_entities" "gpt_4o_mini" "{}" "{}" "ep1".

Definition feedback : list OpenAI.Query.FeedbackRow :=
  [OpenAI.Query.mkFeedbackRow "i1" "exact_match" (9 # 10) 1;
   OpenAI.Query.mkFeedbackRow "i1" "exact_match" (1 # 10) 2].

(** A generator whose shuffle leaves the array as it is. *)
Definition seed (s : Z) : unit := tt.

Definition shuffle (st : unit) (a : list string) : list string * unit := (a, st).

(** Four rendered rows of three episodes. *)
Definition four_rows : list OpenAI.Split.Row :=
  [OpenAI.Split.mkRow "e1" (example []);
   OpenAI.Split.mkRow "e2" (example []);
   OpenAI.Split.mkRow "e1" (example [tool_message "t1" "42"]);
   OpenAI.Split.mkRow "e3" (example [])].

End Demo.

(** ** Further vocabulary: the shape of rendered messages *)

(** The entries of ["tool_calls"] for the tool calls of a block list, in
    source order. *)
Definition tool_calls_of (dumps : Json -> string) (blocks : list ContentBlock) : list Json :=
  flat_map (fun b => match b with
                     | ToolCall id name arguments => [tool_call_dict dumps id name arguments]
                     | _ => []
                     end) blocks.

(** The blocks no branch of [render_message] takes in a message of role
    [r]: an unknown block, a tool call outside an assistant message, a tool
    result outside a user message. *)
Definition unsupported_for (r : string) (b : ContentBlock) : bool :=
  match b with
  | Unknown _ => true
  | ToolCall _ _ _ => negb (r =? "assistant")
  | ToolResult _ _ => negb (r =? "user")
  | _ => false
  end.

(** The texts of the blocks of a chat output, in source order. *)
Definition output_texts (blocks : list OutputBlock) : list string :=
  flat_map (fun b => match b with
                     | OText text => [text]
                     | OThought text => [think text]
                     | _ => []
                     end) blocks.

(** The entries of ["tool_calls"] of a chat output, in source order. *)
Definition output_calls (dumps : Json -> string) (blocks : list OutputBlock) : list Json :=
  flat_map (fun b => match b with
                     | OToolCall id name arguments => [tool_call_dict dumps id name arguments]
                     | _ => []
                     end) blocks.

Definition is_other (b : OutputBlock) : bool :=
  match b with
  | OOther _ => true
  | _ => false
  end.

Definition is_output_text (b : OutputBlock) : bool :=
  match b with
  | OText _ => true
  | _ => false
  end.

(** The roles a message rendered from an input message can have. *)
Definition conversation_role (j : Json) : Prop :=
  role_of j = Some (JStr "tool") \/ role_of j = Some (JStr "user")
  \/ role_of j = Some (JStr "assistant").

(** The system data a template is rendered with: [{}] when the input has
    none. *)
Definition system_data (fi : FunctionInput) : Json :=
  match system fi with
  | Some s => s
  | None => JObj []
  end.

(** ** Further vocabulary: the query *)

(** An inference the query keeps: it is of the function and some feedback
    row of the metric for its target meets the threshold. *)
Definition has_passing_feedback (metric_type metric_optimize FUNCTION_NAME METRIC_NAME : string)
    (FLOAT_METRIC_THRESHOLD : Q) (feedback : list OpenAI.Query.FeedbackRow) (key : string)
    (i : OpenAI.Query.InferenceRow) : bool :=
  (OpenAI.Query.function_name i =? FUNCTION_NAME)
  && existsb (fun f => OpenAI.Query.feedback_where metric_type metric_optimize METRIC_NAME
                         FLOAT_METRIC_THRESHOLD f
                       && (OpenAI.Query.target_id f =? OpenAI.Query.join_column key i))
       feedback.

(** ** The query of the Fireworks notebook *)

Module Demonstrations.

Record DemonstrationRow : Type := mkDemonstrationRow {
  inference_id : string;
  value : string;
  timestamp : Z
}.

(** A row of the data frame [df]; [df_value] is the demonstration. *)
Record DfRow : Type := mkDfRow {
  df_variant_name : string;
  df_input : string;
  df_output : string;
  df_value : string;
  df_episode_id : string
}.

Section Cells.

Variable ChatInference JsonInference : list OpenAI.Query.InferenceRow.
Variable DemonstrationFeedback : list DemonstrationRow.
Variable function_type : string.
Variable FUNCTION_NAME : string.
Variable MAX_SAMPLES : nat.

Definition inference_table_name : Exc string :=
  if function_type =? "chat" then Val "ChatInference"
  else if function_type =? "json" then Val "JsonInference"
  else Raise (ValueError ("Unsupported function type: " ++ function_type)).

Definition inference_table (name : string) : list OpenAI.Query.InferenceRow :=
  if name =? "ChatInference" then ChatInference else JsonInference.

(** [ROW_NUMBER() OVER (PARTITION BY inference_id ORDER BY timestamp DESC)],
    as in the OpenAI notebook: rows with equal timestamps keep their table
    order. *)
Definition row_number (seen : list DemonstrationRow) (r : DemonstrationRow)
    (rest : list DemonstrationRow) : nat :=
  S (List.length (filter (fun x => (inference_id x =? inference_id r)
                                   && (timestamp r <=? timestamp x)%Z) seen)
     + List.length (filter (fun x => (inference_id x =? inference_id r)
                                     && (timestamp r <? timestamp x)%Z) rest)).

Fixpoint number_rows (seen rows : list DemonstrationRow) : list (DemonstrationRow * nat) :=
  match rows with
  | [] => []
  | r :: rest => (r, row_number seen r rest) :: number_rows (seen ++ [r]) rest
  end.

(** The subquery [f]: every demonstration with its [rn]. *)
Definition subquery : list (DemonstrationRow * nat) :=
  number_rows [] DemonstrationFeedback.

(** [ON i.id = f.inference_id AND f.rn = 1] *)
Definition join_on (i : OpenAI.Query.InferenceRow) (f : DemonstrationRow * nat) : bool :=
  (OpenAI.Query.id i =? inference_id (fst f)) && (snd f =? 1)%nat.

Definition select_columns (p : OpenAI.Query.InferenceRow * (DemonstrationRow * nat)) : DfRow :=
  let (i, f) := p in
  mkDfRow (OpenAI.Query.variant_name i) (OpenAI.Query.input i) (OpenAI.Query.output i)
    (value (fst f)) (OpenAI.Query.episode_id i).

(** The query without its [LIMIT]: join, [WHERE], [SELECT]. *)
Definition selected (inferences : list OpenAI.Query.InferenceRow) : list DfRow :=
  map select_columns
    (filter (fun p => OpenAI.Query.function_name (fst p) =? FUNCTION_NAME)
       (flat_map (fun i => map (pair i) (filter (join_on i) subquery)) inferences)).

Definition run_query (inferences : list OpenAI.Query.InferenceRow) : list DfRow :=
  firstn MAX_SAMPLES (selected inferences).

Definition df : Exc (list DfRow) :=
  itn <- inference_table_name ;;
  Val (run_query (inference_table itn)).

End Cells.

End Demonstrations.

(** An inference the demonstration query keeps. *)
Definition has_demonstration (FUNCTION_NAME : string)
    (demonstrations : list Demonstrations.DemonstrationRow)
    (i : OpenAI.Query.InferenceRow) : bool :=
  (OpenAI.Query.function_name i =? FUNCTION_NAME)
  && existsb (fun d => Demonstrations.inference_id d =? OpenAI.Query.id i) demonstrations.

(** [d] is a most recent demonstration of its inference. *)
Definition latest_demonstration (demonstrations : list Demonstrations.DemonstrationRow)
    (d : Demonstrations.DemonstrationRow) : Prop :=
  In d demonstrations /\
  forall d', In d' demonstrations ->
             Demonstrations.inference_id d' = Demonstrations.inference_id d ->
             (Demonstrations.timestamp d' <= Demonstrations.timestamp d)%Z.

(** ** Reading the output of [firectl] (Fireworks notebook)

    A string stands here for a Python [str] whose code points are all below
    256, one character per code point. *)

Module Firectl.

(** What a parsing function does: return a string, [raise ValueError(msg)],
    or fail on a list index. *)
Inductive Outcome : Type :=
| Return (s : string)
| RaiseValueError (msg : string)
| RaiseIndexError.

(** [c.isspace()] *)
Definition isspace (c : ascii) : bool :=
  let n := nat_of_ascii c in
  ((9 <=? n) && (n <=? 13) || (28 <=? n) && (n <=? 32) || (n =? 133) || (n =? 160))%nat.

(** The line boundaries of [str.splitlines]. *)
Definition is_line_boundary (c : ascii) : bool :=
  let n := nat_of_ascii c in
  ((10 <=? n) && (n <=? 13) || (28 <=? n) && (n <=? 30) || (n =? 133))%nat.

(** [s.splitlines()], with [line] the line read so far: a boundary ends the
    line, ["\r\n"] is one boundary, and no empty line follows the last
    boundary. *)
Fixpoint splitlines_from (s : string) (line : string) : list string :=
  match s with
  | EmptyString => match line with EmptyString => [] | _ => [line] end
  | String c rest =>
      if is_line_boundary c then
        line :: match rest with
                | String c' rest' =>
                    if ((nat_of_ascii c =? 13) && (nat_of_ascii c' =? 10))%nat
                    then splitlines_from rest' EmptyString
                    else splitlines_from rest EmptyString
                | EmptyString => splitlines_from rest EmptyString
                end
      else splitlines_from rest (line ++ String c EmptyString)
  end.

Definition splitlines (s : string) : list string := splitlines_from s EmptyString.

(** [s.lstrip()], [s.rstrip()] and [s.strip()] *)
Fixpoint lstrip (s : string) : string :=
  match s with
  | EmptyString => EmptyString
  | String c rest => if isspace c then lstrip rest else s
  end.

Fixpoint rstrip (s : string) : string :=
  match s with
  | EmptyString => EmptyString
  | String c rest =>
      match rstrip rest with
      | EmptyString => if isspace c then EmptyString else String c EmptyString
      | r => String c r
      end
  end.

Definition strip (s : string) : string := rstrip (lstrip s).

(** [s.split(sep)] for a separator of one character, with [cur] the piece
    read so far. *)
Fixpoint split_from (sep : ascii) (s : string) (cur : string) : list string :=
  match s with
  | EmptyString => [cur]
  | String c rest =>
      if Ascii.eqb c sep then cur :: split_from sep rest EmptyString
      else split_from sep rest (cur ++ String c EmptyString)
  end.

Definition split (sep : ascii) (s : string) : list string := split_from sep s EmptyString.

(** [l[-1]] and [l[1]] *)
Definition last_item (l : list string) : option string :=
  match rev l with
  | [] => None
  | x :: _ => Some x
  end.

Definition second_item (l : list string) : option string := nth_error l 1.

(** The loop of [get_job_id]. *)
Fixpoint get_job_id_loop (lines : list string) : Outcome :=
  match lines with
  | [] => RaiseValueError "Job ID not found in output"
  | line :: rest =>
      if String.prefix "Name:" (strip line) then
        match last_item (split "/"%char line) with
        | Some x => Return (strip x)
        | None => RaiseIndexError
        end
      else get_job_id_loop rest
  end.

Definition get_job_id (stdout : string) : Outcome :=
  get_job_id_loop (splitlines stdout).

(** The loop shared by [get_model_id] and [get_model_identifier]: the
    first line that starts with [label], and [msg] when there is none. *)
Fixpoint field_loop (label msg : string) (lines : list string) : Outcome :=
  match lines with
  | [] => RaiseValueError msg
  | line :: rest =>
      if String.prefix label (strip line) then
        match second_item (split ":"%char line) with
        | Some x => Return (strip x)
        | None => RaiseIndexError
        end
      else field_loop label msg rest
  end.

Definition get_model_id (stdout : string) : Outcome :=
  field_loop "Output Model:" "Model ID not found in output" (splitlines stdout).

(** [get_model_identifier], from the output of [firectl get model]. *)
Definition get_model_identifier (stdout : string) : Outcome :=
  field_loop "Name:" "Model identifier not found in output" (splitlines stdout).

(** [c in s] *)
Fixpoint contains (c : ascii) (s : string) : bool :=
  match s with
  | EmptyString => false
  | String c' rest => Ascii.eqb c' c || contains c rest
  end.

End Firectl.

(** Example data for the further facts. *)
Module Cases.

Definition assistant_with_calls : Message :=
  mkMessage "assistant"
    [Thought "plan"; ToolCall "c1" "search" (JObj [("q", JStr "x")]); Text (JStr "Searching");
     ToolCall "c2" "load" JNull].

Definition chat_blocks : list OutputBlock :=
  [OThought "hm"; OText "Paris"; OToolCall "c1" "answer" (JObj [])].

(** A template environment without a [user] template. *)
Definition render_template (name : string) (fields : list (string * Json)) : Exc string :=
  if name =? "system" then Val "You are helpful."
  else Raise (TemplateError ("template not found: " ++ name)).

Definition plain_input : FunctionInput :=
  mkFunctionInput None [mkMessage "user" [RawText "Hi"]; mkMessage "assistant" [RawText "Hello"]].

(** An episode with two inferences and one boolean feedback. *)
Definition episode_inferences : list OpenAI.Query.InferenceRow :=
  [OpenAI.Query.mkInferenceRow "i1" "extract_entities" "gpt_4o_mini" "{}" "{}" "ep1";
   OpenAI.Query.mkInferenceRow "i2" "extract_entities" "gpt_4o_mini" "{}" "{}" "ep1";
   OpenAI.Query.mkInferenceRow "i3" "other_function" "gpt_4o_mini" "{}" "{}" "ep1"].

Definition episode_feedback : list OpenAI.Query.FeedbackRow :=
  [OpenAI.Query.mkFeedbackRow "ep1" "solved" 1 5;
   OpenAI.Query.mkFeedbackRow "ep2" "solved" 0 6].

(** Two demonstrations of inference [i1], none of [i2]. *)
Definition demonstrations : list Demonstrations.DemonstrationRow :=
  [Demonstrations.mkDemonstrationRow "i1" "old" 1;
   Demonstrations.mkDemonstrationRow "i1" "new" 2].

(** Three rendered rows of a single episode. *)
Definition one_episode : list OpenAI.Split.Row :=
  [OpenAI.Split.mkRow "e1" (example []);
   OpenAI.Split.mkRow "e1" (example [tool_message "t1" "42"]);
   OpenAI.Split.mkRow "e1" (example [tool_message "t2" "43"])].

(** What [firectl create sftj] prints, in short. *)
Definition job_stdout : string :=
  ("Creating job" ++ String (ascii_of_nat 10) ""
   ++ "  Name: accounts/acme/supervisedFineTuningJobs/j42 " ++ String (ascii_of_nat 13) ""
   ++ String (ascii_of_nat 10) "" ++ "State: JOB_STATE_CREATING")%string.

(** What [firectl get sftj] prints once the job is done, in short. *)
Definition model_stdout : string :=
  ("Name: accounts/acme/supervisedFineTuningJobs/j42" ++ String (ascii_of_nat 10) ""
   ++ "Output Model: accounts/acme/models/m7" ++ String (ascii_of_nat 10) "")%string.

Definition input_with_bad_role : FunctionInput :=
  mkFunctionInput None
    [mkMessage "user" [RawText "Hi"]; mkMessage "system" [RawText "Be brief"];
     mkMessage "user" [Unknown "image"]].

End Cases.

(** ** Facts about the normalizers *)

Lemma bind_val_inv {A B : Type} (c : Exc A) (k : A -> Exc B) (b : B) :
  bind c k = Val b -> exists a, c = Val a /\ k a = Val b.
Proof.
  destruct c as [a | e]; simpl; intros H.
  - exists a. split; [reflexivity | exact H].
  - discriminate H.
Qed.

Lemma filter_text_bearing_app (l1 l2 : list ContentBlock) :
  filter text_bearing (l1 ++ l2) = filter text_bearing l1 ++ filter text_bearing l2.
Proof. apply filter_app. Qed.

Lemma tool_results_app (l1 l2 : list ContentBlock) :
  tool_results (l1 ++ l2) = tool_results l1 ++ tool_results l2.
Proof. unfold tool_results. apply flat_map_app. Qed.

Lemma map_val_app_inv {A : Type} (xs ys : list (Exc A)) (ts : list A) :
  xs ++ ys = map Val ts ->
  exists t1 t2, ts = t1 ++ t2 /\ xs = map Val t1 /\ ys = map Val t2.
Proof.
  revert ts. induction xs as [| x xs IH]; intros ts H; simpl in H.
  - exists [], ts. auto.
  - destruct ts as [| t ts]; [discriminate H |].
    simpl in H. injection H as Hx Hrest.
    destruct (IH ts Hrest) as (t1 & t2 & -> & -> & ->).
    exists (t :: t1), t2. subst x. auto.
Qed.

(** Case analysis on the value of a [Text] block, as the loops do it. *)
Ltac text_value v :=
  destruct v; simpl in *; try discriminate;
  try match goal with
      | H : bind ?c _ = Val _ |- _ =>
          let a := fresh "s" in
          let Hc := fresh "Hc" in
          apply bind_val_inv in H; destruct H as (a & Hc & H)
      end.

Section FireworksFacts.

Variable render_template : string -> list (string * Json) -> Exc string.
Variable json_dumps : Json -> string.
Variable DROP_INVALID_MESSAGES : bool.

Local Abbreviation loop :=
  (Fireworks.render_message_loop render_template json_dumps DROP_INVALID_MESSAGES).

Lemma fireworks_finish_message_app (r : string) (c : list string) (t rms : list Json) :
  Fireworks.finish_message r c t rms = rms ++ Fireworks.finish_message r c t [].
Proof.
  unfold Fireworks.finish_message.
  destruct (truthy c || truthy t); simpl; [reflexivity | now rewrite app_nil_r].
Qed.

(** A message that is rendered is made of the tool results of its blocks,
    in source order, followed by what [finish_message] builds from the
    texts of its text-bearing blocks, in source order. *)
Lemma fireworks_loop_some (blocks : list ContentBlock) :
  forall (r : string) (c : list string) (t rms out : list Json),
    loop r blocks c t rms = Val (Some out) ->
    exists texts calls,
      map (rendered_text render_template r) (filter text_bearing blocks) = map Val texts /\
      ((r =? "assistant") = false -> calls = []) /\
      out = rms ++ tool_results blocks ++ Fireworks.finish_message r (c ++ texts) (t ++ calls) [].
Proof.
  induction blocks as [| b rest IH]; intros r c t rms out H; simpl in H.
  - exists [], []. split; [reflexivity |]. split; [reflexivity |].
    injection H as <-. rewrite !app_nil_r. simpl. apply fireworks_finish_message_app.
  - destruct (Fireworks.not_text_or_raw_text b && DROP_INVALID_MESSAGES); [discriminate H |].
    destruct b as [v | v | th | i n a | i res | ty].
    + assert (exists s, rendered_text render_template r (Text v) = Val s /\
                Fireworks.render_message_loop render_template json_dumps DROP_INVALID_MESSAGES
                  r rest (c ++ [s]) t rms = Val (Some out)) as (s & Hs & Hrest).
      { text_value v; eauto. }
      destruct (IH _ _ _ _ _ Hrest) as (texts & calls & Htexts & Hcalls & ->).
      exists (s :: texts), calls. cbn [filter text_bearing map].
      rewrite Hs, Htexts, <- app_assoc. auto.
    + destruct (IH _ _ _ _ _ H) as (texts & calls & Htexts & Hcalls & ->).
      exists (v :: texts), calls. cbn [filter text_bearing map rendered_text].
      rewrite Htexts, <- app_assoc. auto.
    + destruct (IH _ _ _ _ _ H) as (texts & calls & Htexts & Hcalls & ->).
      exists (think th :: texts), calls. cbn [filter text_bearing map rendered_text].
      rewrite Htexts, <- app_assoc. auto.
    + destruct (r =? "assistant") eqn:Hr; [| discriminate H].
      destruct (negb DROP_INVALID_MESSAGES); [| discriminate H]. simpl in H.
      destruct (IH _ _ _ _ _ H) as (texts & calls & Htexts & Hcalls & ->).
      exists texts, (tool_call_dict json_dumps i n a :: calls).
      cbn [filter text_bearing]. rewrite <- app_assoc.
      split; [exact Htexts |]. split; [discriminate | reflexivity].
    + destruct ((r =? "user") && negb DROP_INVALID_MESSAGES); [| discriminate H].
      destruct (IH _ _ _ _ _ H) as (texts & calls & Htexts & Hcalls & ->).
      exists texts, calls. cbn [filter text_bearing].
      split; [exact Htexts |]. split; [exact Hcalls |].
      change (tool_results (ToolResult i res :: rest))
        with ([tool_message i res] ++ tool_results rest).
      now rewrite <- !app_assoc.
    + discriminate H.
Qed.

(** Whether the loop signals a drop does not depend on what it has
    accumulated. *)
Lemma fireworks_loop_none_acc (blocks : list ContentBlock) :
  forall (r : string) (c c' : list string) (t t' rms rms' : list Json),
    loop r blocks c t rms = Val None -> loop r blocks c' t' rms' = Val None.
Proof.
  induction blocks as [| b rest IH]; intros r c c' t t' rms rms' H; simpl in *.
  - discriminate H.
  - destruct (Fireworks.not_text_or_raw_text b && DROP_INVALID_MESSAGES); [reflexivity |].
    destruct b as [v | v | th | i n a | i res | ty]; eauto.
    + destruct v; simpl in *; try discriminate; eauto.
      destruct (render_template r fields); simpl in *; [eauto | discriminate].
    + destruct ((r =? "assistant") && negb DROP_INVALID_MESSAGES); eauto.
    + destruct ((r =? "user") && negb DROP_INVALID_MESSAGES); eauto.
Qed.

End FireworksFacts.

Lemma fireworks_thought_not_cause (render_template : string -> list (string * Json) -> Exc string)
    (json_dumps : Json -> string) (th : string) (pre post : list ContentBlock) :
  forall (r : string) (c : list string) (t rms : list Json),
    Fireworks.render_message_loop render_template json_dumps false r
      (pre ++ Thought th :: post) c t rms = Val None ->
    Fireworks.render_message_loop render_template json_dumps false r
      (pre ++ post) c t rms = Val None.
Proof.
  induction pre as [| b pre IH]; intros r c t rms H; simpl in *.
  - eapply fireworks_loop_none_acc; eassumption.
  - rewrite andb_false_r in *.
    destruct b as [v | v | th' | i n a | i res | ty]; eauto.
    + destruct v; simpl in *; try discriminate; eauto.
      destruct (render_template r fields); simpl in *; [eauto | discriminate].
    + destruct (r =? "assistant"); simpl in *; eauto.
    + destruct (r =? "user"); simpl in *; eauto.
Qed.

Section OpenAIFacts.

Variable render_template : string -> list (string * Json) -> Exc string.
Variable json_dumps : Json -> string.

Local Abbreviation loop := (OpenAI.render_message_loop render_template json_dumps).

Lemma openai_finish_message_app (r : string) (c : list string) (t rms : list Json) :
  OpenAI.finish_message r c t rms = rms ++ OpenAI.finish_message r c t [].
Proof.
  unfold OpenAI.finish_message.
  destruct (truthy c || truthy t); simpl; [reflexivity | now rewrite app_nil_r].
Qed.

(** The same shape as for the Fireworks loop: tool results first, then the
    one message [finish_message] builds. *)
Lemma openai_loop_some (blocks : list ContentBlock) :
  forall (r : string) (c : list string) (t rms out : list Json),
    loop r blocks c t rms = Val (Some out) ->
    exists texts calls,
      map (rendered_text render_template r) (filter text_bearing blocks) = map Val texts /\
      ((r =? "assistant") = false -> calls = []) /\
      out = rms ++ tool_results blocks ++ OpenAI.finish_message r (c ++ texts) (t ++ calls) [].
Proof.
  induction blocks as [| b rest IH]; intros r c t rms out H; simpl in H.
  - exists [], []. split; [reflexivity |]. split; [reflexivity |].
    injection H as <-. rewrite !app_nil_r. simpl. apply openai_finish_message_app.
  - destruct b as [v | v | th | i n a | i res | ty].
    + assert (exists s, rendered_text render_template r (Text v) = Val s /\
                OpenAI.render_message_loop render_template json_dumps
                  r rest (c ++ [s]) t rms = Val (Some out)) as (s & Hs & Hrest).
      { text_value v; eauto. }
      destruct (IH _ _ _ _ _ Hrest) as (texts & calls & Htexts & Hcalls & ->).
      exists (s :: texts), calls. cbn [filter text_bearing map].
      rewrite Hs, Htexts, <- app_assoc. auto.
    + destruct (IH _ _ _ _ _ H) as (texts & calls & Htexts & Hcalls & ->).
      exists (v :: texts), calls. cbn [filter text_bearing map rendered_text].
      rewrite Htexts, <- app_assoc. auto.
    + destruct (IH _ _ _ _ _ H) as (texts & calls & Htexts & Hcalls & ->).
      exists (think th :: texts), calls. cbn [filter text_bearing map rendered_text].
      rewrite Htexts, <- app_assoc. auto.
    + destruct (r =? "assistant") eqn:Hr; [| discriminate H].
      destruct (IH _ _ _ _ _ H) as (texts & calls & Htexts & Hcalls & ->).
      exists texts, (tool_call_dict json_dumps i n a :: calls).
      cbn [filter text_bearing]. rewrite <- app_assoc.
      split; [exact Htexts |]. split; [discriminate | reflexivity].
    + destruct (r =? "user"); [| discriminate H].
      destruct (IH _ _ _ _ _ H) as (texts & calls & Htexts & Hcalls & ->).
      exists texts, calls. cbn [filter text_bearing].
      split; [exact Htexts |]. split; [exact Hcalls |].
      change (tool_results (ToolResult i res :: rest))
        with ([tool_message i res] ++ tool_results rest).
      now rewrite <- !app_assoc.
    + discriminate H.
Qed.

Lemma openai_loop_none_acc (blocks : list ContentBlock) :
  forall (r : string) (c c' : list string) (t t' rms rms' : list Json),
    loop r blocks c t rms = Val None -> loop r blocks c' t' rms' = Val None.
Proof.
  induction blocks as [| b rest IH]; intros r c c' t t' rms rms' H; simpl in *.
  - discriminate H.
  - destruct b as [v | v | th | i n a | i res | ty]; eauto.
    + destruct v; simpl in *; try discriminate; eauto.
      destruct (render_template r fields); simpl in *; [eauto | discriminate].
    + destruct (r =? "assistant"); eauto.
    + destruct (r =? "user"); eauto.
Qed.

Lemma openai_thought_not_cause (th : string) (pre post : list ContentBlock) :
  forall (r : string) (c : list string) (t rms : list Json),
    loop r (pre ++ Thought th :: post) c t rms = Val None ->
    loop r (pre ++ post) c t rms = Val None.
Proof.
  induction pre as [| b pre IH]; intros r c t rms H; simpl in *.
  - eapply openai_loop_none_acc; eassumption.
  - destruct b as [v | v | th' | i n a | i res | ty]; eauto.
    + destruct v; simpl in *; try discriminate; eauto.
      destruct (render_template r fields); simpl in *; [eauto | discriminate].
    + destruct (r =? "assistant"); eauto.
    + destruct (r =? "user"); eauto.
Qed.

End OpenAIFacts.

Lemma fireworks_render_message_val (render_template : string -> list (string * Json) -> Exc string)
    (json_dumps : Json -> string) (drop : bool) (m : Message) (x : option (list Json)) :
  Fireworks.render_message render_template json_dumps drop m = Val x ->
  Fireworks.render_message_loop render_template json_dumps drop (role m) (content m) [] [] [] = Val x.
Proof.
  unfold Fireworks.render_message.
  destruct ((role m =? "user") || (role m =? "assistant")); [auto | discriminate].
Qed.

Lemma openai_render_message_val (render_template : string -> list (string * Json) -> Exc string)
    (json_dumps : Json -> string) (m : Message) (x : option (list Json)) :
  OpenAI.render_message render_template json_dumps m = Val x ->
  OpenAI.render_message_loop render_template json_dumps (role m) (content m) [] [] [] = Val x.
Proof.
  unfold OpenAI.render_message.
  destruct ((role m =? "user") || (role m =? "assistant")); [auto | discriminate].
Qed.

Lemma truthy_middle {A : Type} (l1 l2 : list A) (x : A) : truthy (l1 ++ x :: l2) = true.
Proof. destruct l1; reflexivity. Qed.

(** The texts of a block list with a thought in the middle. *)
Lemma thought_texts (render_template : string -> list (string * Json) -> Exc string)
    (r th : string) (pre post : list ContentBlock) (texts : list string) :
  map (rendered_text render_template r) (filter text_bearing (pre ++ Thought th :: post))
    = map Val texts ->
  exists t1 t2,
    texts = t1 ++ think th :: t2 /\
    map (rendered_text render_template r) (filter text_bearing pre) = map Val t1 /\
    map (rendered_text render_template r) (filter text_bearing post) = map Val t2.
Proof.
  rewrite filter_text_bearing_app, map_app. cbn [filter text_bearing map rendered_text].
  intros H. apply map_val_app_inv in H. destruct H as (t1 & t2' & -> & H1 & H2).
  destruct t2' as [| x t2]; [discriminate H2 |].
  simpl in H2. injection H2 as Hx H2. subst x.
  exists t1, t2. auto.
Qed.

Lemma tool_results_thought (th : string) (pre post : list ContentBlock) :
  tool_results (pre ++ Thought th :: post) = tool_results (pre ++ post).
Proof. now rewrite !tool_results_app. Qed.

Lemma fireworks_thought_dropped (render_template : string -> list (string * Json) -> Exc string)
    (json_dumps : Json -> string) (th : string) (pre post : list ContentBlock) :
  forall (r : string) (c : list string) (t rms out : list Json),
    Fireworks.render_message_loop render_template json_dumps true r
      (pre ++ Thought th :: post) c t rms <> Val (Some out).
Proof.
  induction pre as [| b pre IH]; intros r c t rms out H; simpl in H.
  - discriminate H.
  - rewrite andb_true_r in H.
    destruct b as [v | v | th' | i n a | i res | ty]; simpl in H; try discriminate H.
    + destruct v; simpl in H; try discriminate H; try (eapply IH; eassumption).
      destruct (render_template r fields); simpl in H; [eapply IH; eassumption | discriminate H].
    + eapply IH; eassumption.
Qed.

(** C2 (amended).  A [Thought] block is rendered as
    [<think>text</think>] in the content of its message, at its place among
    the texts, and is never the cause of a drop, in the OpenAI normalizer
    and in the Fireworks normalizer with [DROP_INVALID_MESSAGES] off.  With
    [DROP_INVALID_MESSAGES] on, the Fireworks normalizer renders no message
    that holds a [Thought] block. *)
Theorem thought_rendered_unless_drop_invalid
    (render_template : string -> list (string * Json) -> Exc string)
    (json_dumps : Json -> string) (th : string) :
  never_drops_on (OpenAI.render_message render_template json_dumps) (Thought th)
  /\ never_drops_on (Fireworks.render_message render_template json_dumps false) (Thought th)
  /\ (forall r pre post out,
        OpenAI.render_message render_template json_dumps
          (mkMessage r (pre ++ Thought th :: post)) = Val (Some out) ->
        exists t1 t2 calls,
          map (rendered_text render_template r) (filter text_bearing pre) = map Val t1 /\
          map (rendered_text render_template r) (filter text_bearing post) = map Val t2 /\
          out = tool_results (pre ++ post)
                ++ [role_dict r (Some (JArr (map text_part (t1 ++ think th :: t2)))) calls])
  /\ (forall r pre post out,
        Fireworks.render_message render_template json_dumps false
          (mkMessage r (pre ++ Thought th :: post)) = Val (Some out) ->
        exists t1 t2 calls,
          map (rendered_text render_template r) (filter text_bearing pre) = map Val t1 /\
          map (rendered_text render_template r) (filter text_bearing post) = map Val t2 /\
          out = tool_results (pre ++ post)
                ++ [role_dict r (Some (JStr (String.concat newline (t1 ++ think th :: t2)))) calls])
  /\ (forall r pre post out,
        Fireworks.render_message render_template json_dumps true
          (mkMessage r (pre ++ Thought th :: post)) <> Val (Some out)).
Proof.
  repeat split.
  - intros r pre post. unfold OpenAI.render_message. cbn [role content].
    destruct ((r =? "user") || (r =? "assistant")); [| discriminate].
    apply openai_thought_not_cause.
  - intros r pre post. unfold Fireworks.render_message. cbn [role content].
    destruct ((r =? "user") || (r =? "assistant")); [| discriminate].
    apply fireworks_thought_not_cause.
  - intros r pre post out H.
    apply openai_render_message_val, openai_loop_some in H. cbn [role content] in H.
    destruct H as (texts & calls & Htexts & _ & ->).
    apply thought_texts in Htexts. destruct Htexts as (t1 & t2 & -> & H1 & H2).
    exists t1, t2, calls. repeat split; try assumption.
    rewrite tool_results_thought. unfold OpenAI.finish_message.
    cbn [app]. now rewrite truthy_middle.
  - intros r pre post out H.
    apply fireworks_render_message_val, fireworks_loop_some in H. cbn [role content] in H.
    destruct H as (texts & calls & Htexts & _ & ->).
    apply thought_texts in Htexts. destruct Htexts as (t1 & t2 & -> & H1 & H2).
    exists t1, t2, calls. repeat split; try assumption.
    rewrite tool_results_thought. unfold Fireworks.finish_message.
    cbn [app]. now rewrite truthy_middle.
  - intros r pre post out H.
    apply fireworks_render_message_val in H. cbn [role content] in H.
    eapply fireworks_thought_dropped; eassumption.
Qed.

(** An assistant message with a literal text and a thought, in the OpenAI
    normalizer. *)
Lemma thought_rendered_witness :
  let m := mkMessage "assistant" ([Text (JStr "a")] ++ Thought "x" :: []) in
  let out := [JObj [("role", JStr "assistant");
                    ("content", JArr [text_part "a"; text_part "<think>x</think>"])]] in
  OpenAI.render_message Demo.render_template Demo.json_dumps m = Val (Some out)
  /\ exists t1 t2 calls,
       map (rendered_text Demo.render_template "assistant") (filter text_bearing [Text (JStr "a")])
         = map Val t1 /\
       map (rendered_text Demo.render_template "assistant") (filter text_bearing []) = map Val t2 /\
       out = tool_results ([Text (JStr "a")] ++ [])
             ++ [role_dict "assistant" (Some (JArr (map text_part (t1 ++ think "x" :: t2)))) calls].
Proof.
  split.
  - reflexivity.
  - apply (proj1 (proj2 (proj2
             (thought_rendered_unless_drop_invalid Demo.render_template Demo.json_dumps "x")))
             "assistant" [Text (JStr "a")] []).
    reflexivity.
Defined.

(** C2 as stated fails: with [DROP_INVALID_MESSAGES] on, the Fireworks
    normalizer drops the message [[thought "x"]], and renders it once the
    thought is taken out. *)
Lemma thought_dropped_when_drop_invalid :
  Fireworks.render_message Demo.render_template Demo.json_dumps true
    (mkMessage "assistant" [Thought "x"]) = Val None
  /\ Fireworks.render_message Demo.render_template Demo.json_dumps true
       (mkMessage "assistant" []) = Val (Some [])
  /\ ~ never_drops_on (Fireworks.render_message Demo.render_template Demo.json_dumps true)
         (Thought "x").
Proof.
  split; [reflexivity |]. split; [reflexivity |].
  intros H. specialize (H "assistant" [] [] eq_refl). discriminate H.
Qed.

Lemma openai_loop_plain (render_template : string -> list (string * Json) -> Exc string)
    (json_dumps : Json -> string) (blocks : list ContentBlock) :
  forallb plain_user_block blocks = true ->
  forall (c : list string) (t rms : list Json),
    OpenAI.render_message_loop render_template json_dumps "user" blocks c t rms
    = Val (Some (rms ++ tool_results blocks
                 ++ OpenAI.finish_message "user" (c ++ plain_texts blocks) t [])).
Proof.
  induction blocks as [| b rest IH]; intros Hplain c t rms.
  - simpl. now rewrite !app_nil_r, <- openai_finish_message_app.
  - simpl in Hplain. apply andb_true_iff in Hplain. destruct Hplain as (Hb & Hrest).
    destruct b as [v | v | th | i n a | i res | ty]; try discriminate Hb.
    + destruct v; try discriminate Hb. simpl. rewrite (IH Hrest), <- app_assoc. reflexivity.
    + simpl. rewrite (IH Hrest), <- app_assoc. reflexivity.
    + simpl. rewrite (IH Hrest), <- app_assoc. reflexivity.
    + simpl. rewrite (IH Hrest), <- app_assoc. reflexivity.
Qed.

Lemma fireworks_loop_plain (render_template : string -> list (string * Json) -> Exc string)
    (json_dumps : Json -> string) (blocks : list ContentBlock) :
  forallb plain_user_block blocks = true ->
  forall (c : list string) (t rms : list Json),
    Fireworks.render_message_loop render_template json_dumps false "user" blocks c t rms
    = Val (Some (rms ++ tool_results blocks
                 ++ Fireworks.finish_message "user" (c ++ plain_texts blocks) t [])).
Proof.
  induction blocks as [| b rest IH]; intros Hplain c t rms.
  - simpl. now rewrite !app_nil_r, <- fireworks_finish_message_app.
  - simpl in Hplain. apply andb_true_iff in Hplain. destruct Hplain as (Hb & Hrest).
    destruct b as [v | v | th | i n a | i res | ty]; try discriminate Hb.
    + destruct v; try discriminate Hb. simpl. rewrite (IH Hrest), <- app_assoc. reflexivity.
    + simpl. rewrite (IH Hrest), <- app_assoc. reflexivity.
    + simpl. rewrite (IH Hrest), <- app_assoc. reflexivity.
    + simpl. rewrite (IH Hrest), <- app_assoc. reflexivity.
Qed.

(** C4.  When a [user] message is rendered, every tool result of the
    message is a standalone [tool] message, in source order, and all of them
    come before the one [user] message that carries the texts of the
    message, wherever the tool results stand among the blocks.  This holds
    where tool results are permitted: in the OpenAI normalizer and in the
    Fireworks normalizer with [DROP_INVALID_MESSAGES] off.  A [user] message
    of literal texts, raw texts, thoughts and tool results is always
    rendered, in this form.  The message
    [[raw_text "Hi", tool_result "t1" "42"]] gives tool("42") then
    user("Hi"). *)
Theorem tool_results_precede_user_content
    (render_template : string -> list (string * Json) -> Exc string)
    (json_dumps : Json -> string) (blocks : list ContentBlock) :
  (forall out,
      OpenAI.render_message render_template json_dumps (mkMessage "user" blocks) = Val (Some out) ->
      exists texts,
        map (rendered_text render_template "user") (filter text_bearing blocks) = map Val texts /\
        out = tool_results blocks
              ++ match texts with
                 | [] => []
                 | _ :: _ => [JObj [("role", JStr "user"); ("content", JArr (map text_part texts))]]
                 end)
  /\ (forall out,
        Fireworks.render_message render_template json_dumps false (mkMessage "user" blocks)
          = Val (Some out) ->
        exists texts,
          map (rendered_text render_template "user") (filter text_bearing blocks) = map Val texts /\
          out = tool_results blocks
                ++ match texts with
                   | [] => []
                   | _ :: _ => [JObj [("role", JStr "user");
                                      ("content", JStr (String.concat newline texts))]]
                   end)
  /\ (forallb plain_user_block blocks = true ->
      OpenAI.render_message render_template json_dumps (mkMessage "user" blocks)
      = Val (Some (tool_results blocks
                   ++ match plain_texts blocks with
                      | [] => []
                      | _ :: _ => [JObj [("role", JStr "user");
                                         ("content", JArr (map text_part (plain_texts blocks)))]]
                      end))
      /\ Fireworks.render_message render_template json_dumps false (mkMessage "user" blocks)
         = Val (Some (tool_results blocks
                      ++ match plain_texts blocks with
                         | [] => []
                         | _ :: _ => [JObj [("role", JStr "user");
                                            ("content", JStr (String.concat newline (plain_texts blocks)))]]
                         end)))
  /\ OpenAI.render_message render_template json_dumps Demo.hi_then_tool_result
     = Val (Some [JObj [("role", JStr "tool"); ("tool_call_id", JStr "t1"); ("content", JStr "42")];
                  JObj [("role", JStr "user"); ("content", JArr [text_part "Hi"])]])
  /\ Fireworks.render_message render_template json_dumps false Demo.hi_then_tool_result
     = Val (Some [JObj [("role", JStr "tool"); ("tool_call_id", JStr "t1"); ("content", JStr "42")];
                  JObj [("role", JStr "user"); ("content", JStr "Hi")]]).
Proof.
  split; [| split; [| split; [| split; reflexivity]]].
  3: {
    intros Hplain. unfold OpenAI.render_message, Fireworks.render_message. cbn [role content orb].
    change ("user" =? "user") with true. cbn [orb].
    rewrite (openai_loop_plain _ _ _ Hplain), (fireworks_loop_plain _ _ _ Hplain).
    cbn [app]. unfold OpenAI.finish_message, Fireworks.finish_message.
    destruct (plain_texts blocks); split; reflexivity. }
  - intros out H.
    apply openai_render_message_val, openai_loop_some in H. cbn [role content] in H.
    destruct H as (texts & calls & Htexts & Hcalls & ->).
    rewrite (Hcalls eq_refl). exists texts. split; [exact Htexts |].
    destruct texts; reflexivity.
  - intros out H.
    apply fireworks_render_message_val, fireworks_loop_some in H. cbn [role content] in H.
    destruct H as (texts & calls & Htexts & Hcalls & ->).
    rewrite (Hcalls eq_refl). exists texts. split; [exact Htexts |].
    destruct texts; reflexivity.
Qed.

(** Two tool results interleaved with two texts, in the Fireworks
    normalizer. *)
Lemma tool_results_precede_witness :
  exists texts,
    map (rendered_text Demo.render_template "user")
        (filter text_bearing [Text (JStr "a"); ToolResult "t1" "42"; RawText "b"; ToolResult "t2" "43"])
      = map Val texts /\
    [tool_message "t1" "42"; tool_message "t2" "43";
     JObj [("role", JStr "user"); ("content", JStr (String.concat newline ["a"; "b"]))]]
    = tool_results [Text (JStr "a"); ToolResult "t1" "42"; RawText "b"; ToolResult "t2" "43"]
      ++ match texts with
         | [] => []
         | _ :: _ => [JObj [("role", JStr "user"); ("content", JStr (String.concat newline texts))]]
         end.
Proof.
  apply (proj1 (proj2 (tool_results_precede_user_content Demo.render_template Demo.json_dumps
                         [Text (JStr "a"); ToolResult "t1" "42"; RawText "b"; ToolResult "t2" "43"]))).
  reflexivity.
Defined.



(** ** Facts about the assemblers *)

Section MessagesLoop.

Variable render : Message -> Exc (option (list Json)).

Local Abbreviation messages_loop := (messages_loop render).


Lemma messages_loop_some (msgs : list Message) :
  forall acc out,
    messages_loop msgs acc = Val (Some out) <->
    exists rendered,
      Forall2 (fun m r => render m = Val (Some r)) msgs rendered /\
      out = acc ++ List.concat rendered.
Proof.
  induction msgs as [| m rest IH]; intros acc out; simpl.
  - split.
    + intros H. injection H as <-. exists []. split; [constructor | now rewrite app_nil_r].
    + intros (rendered & HF & ->). inversion HF. simpl. now rewrite app_nil_r.
  - split.
    + intros H. destruct (render m) as [[ms |] | e] eqn:Hm; try discriminate H.
      apply IH in H. destruct H as (rendered & HF & ->).
      exists (ms :: rendered). split; [now constructor | simpl; now rewrite app_assoc].
    + intros (rendered & HF & ->). inversion HF as [| m' r ms' rs Hm Hrest]; subst.
      rewrite Hm. apply IH. exists rs. split; [assumption | simpl; now rewrite app_assoc].
Qed.

Lemma messages_loop_none (msgs : list Message) :
  forall acc,
    Forall (fun m => exists x, render m = Val x) msgs ->
    (exists m, In m msgs /\ render m = Val None) ->
    messages_loop msgs acc = Val None.
Proof.
  induction msgs as [| m rest IH]; intros acc Hall (d & Hin & Hd); simpl.
  - destruct Hin.
  - inversion Hall as [| m' rest' (x & Hx) Hrest]; subst.
    rewrite Hx. destruct x as [ms |]; [| reflexivity].
    apply IH; [assumption |].
    destruct Hin as [-> | Hin]; [congruence |]. exists d. auto.
Qed.

Lemma messages_loop_none_inv (msgs : list Message) :
  forall acc,
    messages_loop msgs acc = Val None ->
    exists m, In m msgs /\ render m = Val None.
Proof.
  induction msgs as [| m rest IH]; intros acc H; simpl in H; [discriminate H |].
  destruct (render m) as [[ms |] | e] eqn:Hm; try discriminate H.
  - destruct (IH _ H) as (d & Hin & Hd). exists d. split; [now right | assumption].
  - exists m. split; [now left | assumption].
Qed.

End MessagesLoop.

Lemma fireworks_input_messages_loop (render_template : string -> list (string * Json) -> Exc string)
    (json_dumps : Json -> string) (drop : bool) (msgs : list Message) :
  forall acc,
    Fireworks.input_messages_loop render_template json_dumps drop msgs acc
    = messages_loop (Fireworks.render_message render_template json_dumps drop) msgs acc.
Proof.
  induction msgs as [| m rest IH]; intros acc; simpl; [reflexivity |].
  destruct (Fireworks.render_message render_template json_dumps drop m) as [[ms |] | e];
    simpl; auto.
Qed.

Lemma openai_input_messages_loop (render_template : string -> list (string * Json) -> Exc string)
    (json_dumps : Json -> string) (msgs : list Message) :
  forall acc,
    OpenAI.input_messages_loop render_template json_dumps msgs acc
    = messages_loop (OpenAI.render_message render_template json_dumps) msgs acc.
Proof.
  induction msgs as [| m rest IH]; intros acc; simpl; [reflexivity |].
  destruct (OpenAI.render_message render_template json_dumps m) as [[ms |] | e];
    simpl; auto.
Qed.


Lemma assemble_some (sys : Exc (list Json)) (render : Message -> Exc (option (list Json)))
    (msgs : list Message) (out : Exc (option Json)) (ex : Json) :
  assemble sys render msgs out = Val (Some ex) <->
  exists s rendered o,
    sys = Val s /\
    Forall2 (fun m r => render m = Val (Some r)) msgs rendered /\
    out = Val (Some o) /\
    ex = example (s ++ List.concat rendered ++ [o]).
Proof.
  unfold assemble. split.
  - intros H.
    apply bind_val_inv in H. destruct H as (s & Hs & H).
    apply bind_val_inv in H. destruct H as ([ms |] & Hloop & H); [| discriminate H].
    apply bind_val_inv in H. destruct H as ([o |] & Ho & H); [| discriminate H].
    apply messages_loop_some in Hloop. destruct Hloop as (rendered & HF & ->).
    injection H as <-. exists s, rendered, o. rewrite <- app_assoc. auto.
  - intros (s & rendered & o & -> & HF & -> & ->). simpl.
    assert (messages_loop render msgs s = Val (Some (s ++ List.concat rendered))) as ->.
    { apply messages_loop_some. eauto. }
    simpl. now rewrite <- app_assoc.
Qed.

Lemma assemble_all_or_nothing (sys : Exc (list Json))
    (render : Message -> Exc (option (list Json))) (msgs : list Message) (out : Exc (option Json)) :
  all_or_nothing sys render msgs out (assemble sys render msgs out).
Proof.
  unfold all_or_nothing. split; [| split; [| split]].
  - intros Hdrop ex Hex. apply assemble_some in Hex.
    destruct Hex as (s & rendered & o & _ & HF & Ho & _).
    destruct Hdrop as [(m & Hin & Hm) | Hout]; [| congruence].
    clear - HF Hin Hm. induction HF as [| m' r ms rs Hr _ IH]; [destruct Hin |].
    destruct Hin as [-> | Hin]; [congruence | auto].
  - intros ex. apply assemble_some.
  - intros s -> Hall Hdrop. unfold assemble. simpl.
    now rewrite (messages_loop_none render msgs s Hall Hdrop).
  - intros s rendered -> HF ->. unfold assemble. simpl.
    assert (messages_loop render msgs s = Val (Some (s ++ List.concat rendered))) as ->.
    { apply messages_loop_some. eauto. }
    reflexivity.
Qed.

Lemma openai_sample_assemble (render_template : string -> list (string * Json) -> Exc string)
    (json_dumps : Json -> string) (function_type : string)
    (system_template_path : option string) (fi : FunctionInput) (o : Output) :
  OpenAI.sample_to_openai_messages render_template json_dumps function_type
    system_template_path (OpenAI.mkSample fi o)
  = assemble (system_messages render_template system_template_path fi)
      (OpenAI.render_message render_template json_dumps) (messages fi)
      (OpenAI.render_output json_dumps function_type o).
Proof.
  unfold assemble, OpenAI.sample_to_openai_messages. cbn [OpenAI.input OpenAI.output].
  destruct (system_messages render_template system_template_path fi); simpl; [| reflexivity].
  now rewrite openai_input_messages_loop.
Qed.

Lemma fireworks_sample_assemble (render_template : string -> list (string * Json) -> Exc string)
    (json_dumps : Json -> string) (function_type : string)
    (system_template_path : option string) (drop : bool) (fi : FunctionInput) (o : Output) :
  Fireworks.sample_to_conversational_messages render_template json_dumps function_type
    system_template_path drop (Fireworks.mkSample fi o)
  = assemble (system_messages render_template system_template_path fi)
      (Fireworks.render_message render_template json_dumps drop) (messages fi)
      (Fireworks.render_output json_dumps function_type drop o).
Proof.
  unfold assemble, Fireworks.sample_to_conversational_messages.
  cbn [Fireworks.input Fireworks.value].
  destruct (system_messages render_template system_template_path fi); simpl; [| reflexivity].
  now rewrite fireworks_input_messages_loop.
Qed.



(** With a system template configured, the system message is the rendered
    template, whatever the system data. *)
Lemma system_message_with_template (render_template : string -> list (string * Json) -> Exc string)
    (p : string) (fields : list (string * Json)) (msgs : list Message) :
  system_messages render_template (Some p) (mkFunctionInput (Some (JObj fields)) msgs)
  = (system_message <- render_template "system" fields ;; Val [system_dict (JStr system_message)])
  /\ system_messages render_template (Some p) (mkFunctionInput None msgs)
     = (system_message <- render_template "system" [] ;; Val [system_dict (JStr system_message)]).
Proof.
  unfold system_messages. cbn [system py_len bind List.length].
  split; [| reflexivity].
  destruct (0 <? List.length fields)%nat; reflexivity.
Qed.

(** C6 (the code departs from the claim).  When the variant has no system
    template, the global [system_template_path] was never assigned and both
    assemblers raise [NameError] while resolving the system message, with
    system data or without: no system message is passed through and none is
    omitted. *)
Theorem system_template_unbound_raises
    (render_template : string -> list (string * Json) -> Exc string)
    (json_dumps : Json -> string) (function_type : string) (drop : bool)
    (fields : list (string * Json)) (msgs : list Message) (o : Output) :
  let with_data := mkFunctionInput (Some (JObj fields)) msgs in
  let without := mkFunctionInput None msgs in
  OpenAI.sample_to_openai_messages render_template json_dumps function_type None
    (OpenAI.mkSample with_data o) = Raise (NameError "system_template_path")
  /\ OpenAI.sample_to_openai_messages render_template json_dumps function_type None
       (OpenAI.mkSample without o) = Raise (NameError "system_template_path")
  /\ Fireworks.sample_to_conversational_messages render_template json_dumps function_type None drop
       (Fireworks.mkSample with_data o) = Raise (NameError "system_template_path")
  /\ Fireworks.sample_to_conversational_messages render_template json_dumps function_type None drop
       (Fireworks.mkSample without o) = Raise (NameError "system_template_path").
Proof.
  intros with_data without.
  assert (system_messages render_template None with_data = Raise (NameError "system_template_path"))
    as Hwith.
  { unfold system_messages, with_data. cbn [system py_len bind].
    destruct (0 <? List.length fields)%nat; reflexivity. }
  assert (system_messages render_template None without = Raise (NameError "system_template_path"))
    as Hwithout by reflexivity.
  rewrite !openai_sample_assemble, !fireworks_sample_assemble.
  unfold assemble. rewrite Hwith, Hwithout. repeat split; reflexivity.
Qed.

(** C10.  For a JSON function whose output holds a ["raw"] entry,
    [render_output] returns the assistant message with that entry as its
    content, in both notebooks and for both values of
    [DROP_INVALID_MESSAGES]; it does not signal drop, so a row that is
    dropped is dropped by one of its input messages. *)
Theorem json_output_is_never_dropped
    (render_template : string -> list (string * Json) -> Exc string)
    (json_dumps : Json -> string) (system_template_path : option string) (drop : bool)
    (fi : FunctionInput) (fields : list (string * Json)) (raw : Json) :
  assoc "raw" fields = Some raw ->
  OpenAI.render_output json_dumps "json" (JsonOutput fields)
    = Val (Some (JObj [("role", JStr "assistant"); ("content", raw)]))
  /\ Fireworks.render_output json_dumps "json" drop (JsonOutput fields)
     = Val (Some (JObj [("role", JStr "assistant"); ("content", raw)]))
  /\ (OpenAI.sample_to_openai_messages render_template json_dumps "json" system_template_path
        (OpenAI.mkSample fi (JsonOutput fields)) = Val None ->
      exists m, In m (messages fi) /\ OpenAI.render_message render_template json_dumps m = Val None)
  /\ (Fireworks.sample_to_conversational_messages render_template json_dumps "json"
        system_template_path drop (Fireworks.mkSample fi (JsonOutput fields)) = Val None ->
      exists m, In m (messages fi)
                /\ Fireworks.render_message render_template json_dumps drop m = Val None).
Proof.
  intros Hraw.
  assert (OpenAI.render_output json_dumps "json" (JsonOutput fields)
          = Val (Some (JObj [("role", JStr "assistant"); ("content", raw)]))) as Ho.
  { unfold OpenAI.render_output. simpl. now rewrite Hraw. }
  assert (Fireworks.render_output json_dumps "json" drop (JsonOutput fields)
          = Val (Some (JObj [("role", JStr "assistant"); ("content", raw)]))) as Hf.
  { unfold Fireworks.render_output. simpl. now rewrite Hraw. }
  split; [exact Ho |]. split; [exact Hf |]. split.
  - rewrite openai_sample_assemble, Ho. unfold assemble. intros H.
    apply bind_val_inv in H. destruct H as (s & _ & H).
    apply bind_val_inv in H. destruct H as ([ms |] & Hloop & H); [discriminate H |].
    eapply messages_loop_none_inv; eassumption.
  - rewrite fireworks_sample_assemble, Hf. unfold assemble. intros H.
    apply bind_val_inv in H. destruct H as (s & _ & H).
    apply bind_val_inv in H. destruct H as ([ms |] & Hloop & H); [discriminate H |].
    eapply messages_loop_none_inv; eassumption.
Qed.

(** The output [{"raw": "{}", "parsed": {}}] of a JSON function. *)
Lemma json_output_is_never_dropped_witness :
  OpenAI.render_output Demo.json_dumps "json" Demo.json_output
    = Val (Some (JObj [("role", JStr "assistant"); ("content", JStr "{}")]))
  /\ Fireworks.render_output Demo.json_dumps "json" true Demo.json_output
     = Val (Some (JObj [("role", JStr "assistant"); ("content", JStr "{}")])).
Proof.
  destruct (json_output_is_never_dropped Demo.render_template Demo.json_dumps
              (Some "system.minijinja") true Demo.input_with_image
              [("raw", JStr "{}"); ("parsed", JObj [])] (JStr "{}") eq_refl)
    as (Ho & Hf & _).
  split; [exact Ho | exact Hf].
Defined.

(** ** Facts about the split *)

Lemma unique_In (ids : list string) (x : string) :
  In x (OpenAI.Split.unique ids) <-> In x ids.
Proof.
  induction ids as [| y rest IH]; simpl; [tauto |].
  rewrite filter_In, IH, negb_true_iff, String.eqb_neq.
  destruct (string_dec y x); [subst; tauto |].
  split; [tauto |]. intros [H | H]; [tauto |]. right. split; [assumption | congruence].
Qed.

Lemma unique_NoDup (ids : list string) : NoDup (OpenAI.Split.unique ids).
Proof.
  induction ids as [| y rest IH]; simpl; constructor.
  - rewrite filter_In, negb_true_iff, String.eqb_neq. tauto.
  - now apply NoDup_filter.
Qed.

Lemma isin_In (x : string) (values : list string) :
  OpenAI.Split.isin x values = true <-> In x values.
Proof.
  unfold OpenAI.Split.isin. rewrite existsb_exists. split.
  - intros (y & Hin & Heq). apply String.eqb_eq in Heq. now subst.
  - intros Hin. exists x. split; [assumption | apply String.eqb_refl].
Qed.

Lemma NoDup_app_disjoint {A : Type} (l1 l2 : list A) (a : A) :
  NoDup (l1 ++ l2) -> In a l1 -> In a l2 -> False.
Proof.
  induction l1 as [| x l1 IH]; simpl; intros Hnd H1 H2; [assumption |].
  inversion Hnd as [| ? ? Hx Hrest]; subst.
  destruct H1 as [-> | H1]; [| now apply IH].
  apply Hx, in_or_app. now right.
Qed.

(** [int] of a non-negative rational is its floor. *)
Lemma py_int_floor (x : Q) : 0 <= x -> OpenAI.Split.py_int x = Qfloor x.
Proof.
  destruct x as [n d]. unfold Qle, OpenAI.Split.py_int, Qfloor. simpl. intros H.
  apply Z.quot_div_nonneg; lia.
Qed.

Section SplitFacts.

Variable RandomState : Type.
Variable seed : Z -> RandomState.
Variable shuffle : RandomState -> list string -> list string * RandomState.
Variable VAL_FRACTION : Q.

Local Abbreviation split_cell := (OpenAI.Split.split_cell RandomState seed shuffle VAL_FRACTION).
Local Abbreviation shuffled_ids := (shuffled_ids seed shuffle).


(** The two slices of the split cell are one cut of the shuffled ids. *)
Lemma split_cell_cut (rng : RandomState) (df : list OpenAI.Split.Row) :
  exists n,
    OpenAI.Split.train_episode_ids (fst (split_cell rng df)) = firstn n (shuffled_ids df) /\
    OpenAI.Split.val_episode_ids (fst (split_cell rng df)) = skipn n (shuffled_ids df) /\
    OpenAI.Split.train_df (fst (split_cell rng df))
      = filter (fun r => OpenAI.Split.isin (OpenAI.Split.episode_id r) (firstn n (shuffled_ids df))) df /\
    OpenAI.Split.val_df (fst (split_cell rng df))
      = filter (fun r => OpenAI.Split.isin (OpenAI.Split.episode_id r) (skipn n (shuffled_ids df))) df /\
    n = OpenAI.Split.slice_bound (List.length (shuffled_ids df))
          (OpenAI.Split.py_int
             (inject_Z (Z.of_nat (List.length (shuffled_ids df))) * (1 - VAL_FRACTION))).
Proof.
  unfold OpenAI.Split.split_cell, shuffled_ids.
  destruct (shuffle (seed 42) (OpenAI.Split.unique (map OpenAI.Split.episode_id df)))
    as [ids rng'].
  eexists. cbn. repeat split; reflexivity.
Qed.

Hypothesis shuffle_permutes :
  forall st a, Permutation a (fst (shuffle st a)).

Lemma shuffled_ids_NoDup (df : list OpenAI.Split.Row) : NoDup (shuffled_ids df).
Proof.
  unfold shuffled_ids. eapply Permutation_NoDup; [apply shuffle_permutes | apply unique_NoDup].
Qed.

Lemma shuffled_ids_In (df : list OpenAI.Split.Row) (r : OpenAI.Split.Row) :
  In r df -> In (OpenAI.Split.episode_id r) (shuffled_ids df).
Proof.
  intros H. unfold shuffled_ids.
  eapply Permutation_in; [apply shuffle_permutes |].
  apply unique_In, in_map, H.
Qed.

(** C7.  Whatever the data frame, the validation fraction and the state of
    the generator: no episode id is in both the training and the validation
    id sets, every row whose episode id is in an id set is in the data frame
    of that split, no episode id occurs in both data frames, and every row
    is in one of them. *)
Theorem split_keeps_episodes_apart (rng : RandomState) (df : list OpenAI.Split.Row) :
  let res := fst (split_cell rng df) in
  (forall k, In k (OpenAI.Split.train_episode_ids res) ->
             In k (OpenAI.Split.val_episode_ids res) -> False)
  /\ (forall r, In r df ->
                In (OpenAI.Split.episode_id r) (OpenAI.Split.train_episode_ids res) ->
                In r (OpenAI.Split.train_df res))
  /\ (forall r, In r df ->
                In (OpenAI.Split.episode_id r) (OpenAI.Split.val_episode_ids res) ->
                In r (OpenAI.Split.val_df res))
  /\ (forall r r', In r (OpenAI.Split.train_df res) -> In r' (OpenAI.Split.val_df res) ->
                   OpenAI.Split.episode_id r <> OpenAI.Split.episode_id r')
  /\ (forall r, In r df -> In r (OpenAI.Split.train_df res) \/ In r (OpenAI.Split.val_df res)).
Proof.
  intros res. subst res.
  destruct (split_cell_cut rng df) as (n & -> & -> & -> & -> & _).
  assert (forall k, In k (firstn n (shuffled_ids df)) ->
                    In k (skipn n (shuffled_ids df)) -> False) as Hdisjoint.
  { intros k. apply NoDup_app_disjoint. rewrite firstn_skipn. apply shuffled_ids_NoDup. }
  split; [exact Hdisjoint |].
  split; [intros r Hr Hk; apply filter_In; split; [assumption | now apply isin_In] |].
  split; [intros r Hr Hk; apply filter_In; split; [assumption | now apply isin_In] |].
  split.
  - intros r r' Hr Hr' Heq.
    apply filter_In in Hr, Hr'. destruct Hr as (_ & Hr). destruct Hr' as (_ & Hr').
    apply isin_In in Hr, Hr'. rewrite Heq in Hr. exact (Hdisjoint _ Hr Hr').
  - intros r Hr. pose proof (shuffled_ids_In df r Hr) as Hin.
    rewrite <- (firstn_skipn n (shuffled_ids df)) in Hin.
    apply in_app_or in Hin. rewrite !filter_In, !isin_In. tauto.
Qed.


(** C9.  The result of the split cell does not depend on the state the
    generator is in when the cell starts, so running the cell a second time,
    from the state the first run left, gives the same split. *)
Theorem split_is_deterministic (rng1 rng2 : RandomState) (df : list OpenAI.Split.Row) :
  fst (split_cell rng1 df) = fst (split_cell rng2 df)
  /\ fst (split_cell (snd (split_cell rng1 df)) df) = fst (split_cell rng1 df).
Proof. split; reflexivity. Qed.

End SplitFacts.

(** The shuffle of the worked examples permutes its array. *)
Lemma identity_shuffle_permutes (st : unit) (a : list string) :
  Permutation a (fst (Demo.shuffle st a)).
Proof. apply Permutation_refl. Qed.

(** Four rows of three episodes: both rows of episode [e1] go to
    training. *)
Lemma split_keeps_episodes_apart_witness :
  let res := fst (OpenAI.Split.split_cell unit Demo.seed Demo.shuffle (1 # 5) tt Demo.four_rows) in
  OpenAI.Split.train_df res
    = [OpenAI.Split.mkRow "e1" (example []);
       OpenAI.Split.mkRow "e2" (example []);
       OpenAI.Split.mkRow "e1" (example [tool_message "t1" "42"])]
  /\ OpenAI.Split.val_df res = [OpenAI.Split.mkRow "e3" (example [])]
  /\ forall k, In k (OpenAI.Split.train_episode_ids res) ->
               In k (OpenAI.Split.val_episode_ids res) -> False.
Proof.
  split; [reflexivity |]. split; [reflexivity |].
  exact (proj1 (split_keeps_episodes_apart unit Demo.seed Demo.shuffle (1 # 5)
                  identity_shuffle_permutes tt Demo.four_rows)).
Defined.



(** ** Facts about the query *)

Lemma filter_length_zero {A : Type} (p : A -> bool) (l : list A) :
  List.length (filter p l) = 0%nat <-> forall x, In x l -> p x = false.
Proof.
  induction l as [| a l IH]; simpl.
  - split; [intros _ x [] | reflexivity].
  - destruct (p a) eqn:Hp; simpl.
    + split; [discriminate |]. intros H. specialize (H a (or_introl eq_refl)). congruence.
    + rewrite IH. split.
      * intros H x [<- | Hx]; auto.
      * intros H x Hx. apply H. now right.
Qed.

(** A row has number 1 when no row of its partition sorts before it. *)
Lemma row_number_one (seen rest : list OpenAI.Query.FeedbackRow) (r : OpenAI.Query.FeedbackRow) :
  OpenAI.Query.row_number seen r rest = 1%nat <->
  (forall x, In x seen -> OpenAI.Query.target_id x = OpenAI.Query.target_id r ->
             (OpenAI.Query.timestamp x < OpenAI.Query.timestamp r)%Z)
  /\ (forall x, In x rest -> OpenAI.Query.target_id x = OpenAI.Query.target_id r ->
                (OpenAI.Query.timestamp x <= OpenAI.Query.timestamp r)%Z).
Proof.
  unfold OpenAI.Query.row_number.
  assert (forall a b : nat, S (a + b) = 1%nat <-> a = 0%nat /\ b = 0%nat) as -> by lia.
  rewrite !filter_length_zero. split.
  - intros (Hs & Hr). split; intros x Hx Ht.
    + specialize (Hs x Hx). rewrite andb_false_iff, String.eqb_neq, Z.leb_gt in Hs.
      destruct Hs; [contradiction | lia].
    + specialize (Hr x Hx). rewrite andb_false_iff, String.eqb_neq, Z.ltb_ge in Hr.
      destruct Hr; [contradiction | lia].
  - intros (Hs & Hr). split; intros x Hx; rewrite andb_false_iff, String.eqb_neq.
    + destruct (string_dec (OpenAI.Query.target_id x) (OpenAI.Query.target_id r)) as [Ht | Ht];
        [right | now left].
      apply Z.leb_gt. specialize (Hs x Hx Ht). lia.
    + destruct (string_dec (OpenAI.Query.target_id x) (OpenAI.Query.target_id r)) as [Ht | Ht];
        [right | now left].
      apply Z.ltb_ge. specialize (Hr x Hx Ht). lia.
Qed.

Lemma number_rows_In (rows : list OpenAI.Query.FeedbackRow) :
  forall seen r n,
    In (r, n) (OpenAI.Query.number_rows seen rows) <->
    exists l1 l2, rows = l1 ++ r :: l2 /\ n = OpenAI.Query.row_number (seen ++ l1) r l2.
Proof.
  induction rows as [| a rest IH]; intros seen r n; simpl.
  - split; [intros [] | intros (l1 & l2 & H & _); now destruct l1].
  - rewrite IH. split.
    + intros [H | (l1 & l2 & -> & ->)].
      * injection H as -> <-. exists [], rest. now rewrite app_nil_r.
      * exists (a :: l1), l2. now rewrite <- app_assoc.
    + intros (l1 & l2 & H & ->). destruct l1 as [| b l1]; simpl in H; injection H as -> ->.
      * left. now rewrite app_nil_r.
      * right. exists l1, l2. now rewrite <- app_assoc.
Qed.

(** Among the rows of a target, one is the first of the latest. *)
Lemma first_latest_exists (rows : list OpenAI.Query.FeedbackRow) (t : string) :
  (exists x, In x rows /\ OpenAI.Query.target_id x = t) ->
  exists l1 r l2,
    rows = l1 ++ r :: l2 /\ OpenAI.Query.target_id r = t /\
    (forall x, In x l1 -> OpenAI.Query.target_id x = t ->
               (OpenAI.Query.timestamp x < OpenAI.Query.timestamp r)%Z) /\
    (forall x, In x l2 -> OpenAI.Query.target_id x = t ->
               (OpenAI.Query.timestamp x <= OpenAI.Query.timestamp r)%Z).
Proof.
  induction rows as [| a rest IH]; intros (x & Hx & Ht); [destruct Hx |].
  assert ((exists y, In y rest /\ OpenAI.Query.target_id y = t)
          \/ (forall y, In y rest -> OpenAI.Query.target_id y <> t)) as [Hrest | Hnone].
  { clear. induction rest as [| b rest IH]; [right; intros y [] |].
    destruct (string_dec (OpenAI.Query.target_id b) t) as [Hb | Hb].
    - left. exists b. split; [now left | assumption].
    - destruct IH as [(y & Hy & Hty) | Hnone].
      + left. exists y. split; [now right | assumption].
      + right. intros y [<- | Hy]; auto. }
  - destruct (IH Hrest) as (l1 & r & l2 & -> & Hr & H1 & H2).
    destruct (string_dec (OpenAI.Query.target_id a) t) as [Ha | Ha].
    + destruct (Z.le_gt_cases (OpenAI.Query.timestamp r) (OpenAI.Query.timestamp a)) as [Hle | Hgt].
      * exists [], a, (l1 ++ r :: l2). repeat split; auto; [intros y [] |].
        intros y Hy Hty. apply in_app_or in Hy. destruct Hy as [Hy | [<- | Hy]].
        -- specialize (H1 y Hy Hty). lia.
        -- exact Hle.
        -- specialize (H2 y Hy Hty). lia.
      * exists (a :: l1), r, l2. repeat split; auto.
        intros y [<- | Hy] Hty; [lia | auto].
    + exists (a :: l1), r, l2. repeat split; auto.
      intros y [<- | Hy] Hty; [contradiction | auto].
  - destruct Hx as [<- | Hx]; [| now destruct (Hnone x Hx)].
    exists [], a, rest. repeat split; auto; [intros y [] |].
    intros y Hy Hty. now destruct (Hnone y Hy).
Qed.


Section QueryFacts.

Variable metric_type metric_optimize : string.
Variable FUNCTION_NAME METRIC_NAME : string.
Variable FLOAT_METRIC_THRESHOLD : Q.
Variable MAX_SAMPLES : nat.

Local Abbreviation threshold := (OpenAI.Query.threshold metric_type FLOAT_METRIC_THRESHOLD).
Local Abbreviation comparison_operator := (OpenAI.Query.comparison_operator metric_optimize).
Local Abbreviation feedback_where :=
  (OpenAI.Query.feedback_where metric_type metric_optimize METRIC_NAME FLOAT_METRIC_THRESHOLD).
Local Abbreviation subquery :=
  (OpenAI.Query.subquery metric_type metric_optimize METRIC_NAME FLOAT_METRIC_THRESHOLD).
Local Abbreviation selected :=
  (OpenAI.Query.selected metric_type metric_optimize FUNCTION_NAME METRIC_NAME
     FLOAT_METRIC_THRESHOLD).
Local Abbreviation run_query :=
  (OpenAI.Query.run_query metric_type metric_optimize FUNCTION_NAME METRIC_NAME
     FLOAT_METRIC_THRESHOLD MAX_SAMPLES).

Lemma feedback_where_passing (f : OpenAI.Query.FeedbackRow) :
  feedback_where f = true <-> passing METRIC_NAME comparison_operator threshold f.
Proof.
  unfold OpenAI.Query.feedback_where, passing.
  now rewrite andb_true_iff, String.eqb_eq.
Qed.

(** The rows of the subquery with number 1. *)
Lemma subquery_first (feedback : list OpenAI.Query.FeedbackRow)
    (f : OpenAI.Query.FeedbackRow) :
  In (f, 1%nat) (subquery feedback) ->
  latest_among (passing METRIC_NAME comparison_operator threshold) feedback f.
Proof.
  unfold OpenAI.Query.subquery. rewrite number_rows_In.
  intros (l1 & l2 & Hsplit & Hone). symmetry in Hone. apply row_number_one in Hone.
  destruct Hone as (H1 & H2). simpl in H1.
  assert (forall x, In x feedback /\ feedback_where x = true <-> In x (l1 ++ f :: l2)) as Hin.
  { intros x. rewrite <- Hsplit. symmetry. apply filter_In. }
  assert (In f (l1 ++ f :: l2)) as Hf by (apply in_or_app; right; now left).
  apply Hin in Hf. destruct Hf as (Hf & Hw).
  split; [exact Hf |]. split; [now apply feedback_where_passing |].
  intros f' Hf' Hp Ht. apply feedback_where_passing in Hp.
  assert (In f' (l1 ++ f :: l2)) as Hin' by (apply Hin; auto).
  apply in_app_or in Hin'. destruct Hin' as [Hin' | [<- | Hin']].
  - specialize (H1 f' Hin' Ht). lia.
  - lia.
  - exact (H2 f' Hin' Ht).
Qed.

Lemma subquery_first_exists (feedback : list OpenAI.Query.FeedbackRow) (t : string) :
  (exists f', In f' feedback /\ passing METRIC_NAME comparison_operator threshold f'
              /\ OpenAI.Query.target_id f' = t) ->
  exists f, In (f, 1%nat) (subquery feedback) /\ OpenAI.Query.target_id f = t.
Proof.
  intros (f' & Hin & Hp & Ht).
  destruct (first_latest_exists (filter feedback_where feedback) t) as (l1 & r & l2 & Hs & Hr & H1 & H2).
  { exists f'. split; [| exact Ht]. apply filter_In. split; [exact Hin |].
    now apply feedback_where_passing. }
  exists r. split; [| exact Hr].
  unfold OpenAI.Query.subquery. apply number_rows_In. exists l1, l2. split; [exact Hs |].
  symmetry. apply row_number_one. simpl. rewrite Hr. split; assumption.
Qed.

Lemma selected_In (inferences : list OpenAI.Query.InferenceRow)
    (feedback : list OpenAI.Query.FeedbackRow) (key : string) (row : OpenAI.Query.DfRow) :
  In row (selected inferences feedback key) <->
  exists i f,
    In i inferences /\ OpenAI.Query.function_name i = FUNCTION_NAME /\
    In (f, 1%nat) (subquery feedback) /\
    OpenAI.Query.target_id f = OpenAI.Query.join_column key i /\
    row = joined_row i f.
Proof.
  unfold OpenAI.Query.selected. rewrite in_map_iff. split.
  - intros ([i [f n]] & Hrow & Hp).
    apply filter_In in Hp. destruct Hp as (Hp & Hfn). simpl in Hfn. apply String.eqb_eq in Hfn.
    apply in_flat_map in Hp. destruct Hp as (i' & Hi & Hp).
    apply in_map_iff in Hp. destruct Hp as (fr & Heq & Hfr). injection Heq as -> ->.
    apply filter_In in Hfr. destruct Hfr as (Hsub & Hon).
    unfold OpenAI.Query.join_on in Hon. simpl in Hon.
    apply andb_true_iff in Hon. destruct Hon as (Ht & Hn).
    apply String.eqb_eq in Ht. apply Nat.eqb_eq in Hn. subst n.
    exists i, f. repeat split; auto.
  - intros (i & f & Hi & Hfn & Hsub & Ht & ->).
    exists (i, (f, 1%nat)). split; [reflexivity |].
    apply filter_In. split; [| simpl; now apply String.eqb_eq].
    apply in_flat_map. exists i. split; [exact Hi |].
    apply in_map, filter_In. split; [exact Hsub |].
    unfold OpenAI.Query.join_on. simpl. rewrite Ht, String.eqb_refl. reflexivity.
Qed.

(** C1 (amended).  The query returns the first [MAX_SAMPLES] of the
    selected rows.  Every selected row joins an inference of the function
    with a feedback row of the metric that meets the threshold and is a most
    recent one among the rows of its target that meet the threshold; and
    every inference of the function whose target has at least one feedback
    row of the metric that meets the threshold is selected with such a row.
    Feedback that fails the threshold is set aside before the most recent
    row is taken. *)
Theorem query_selects_latest_passing_feedback
    (inferences : list OpenAI.Query.InferenceRow) (feedback : list OpenAI.Query.FeedbackRow)
    (key : string) :
  run_query inferences feedback key = firstn MAX_SAMPLES (selected inferences feedback key)
  /\ (forall row, In row (run_query inferences feedback key) ->
        In row (selected inferences feedback key))
  /\ (forall row, In row (selected inferences feedback key) ->
        exists i f,
          In i inferences /\ OpenAI.Query.function_name i = FUNCTION_NAME /\
          latest_among (passing METRIC_NAME comparison_operator threshold) feedback f /\
          OpenAI.Query.target_id f = OpenAI.Query.join_column key i /\
          row = joined_row i f)
  /\ (forall i,
        In i inferences -> OpenAI.Query.function_name i = FUNCTION_NAME ->
        (exists f', In f' feedback /\ passing METRIC_NAME comparison_operator threshold f'
                    /\ OpenAI.Query.target_id f' = OpenAI.Query.join_column key i) ->
        exists f,
          latest_among (passing METRIC_NAME comparison_operator threshold) feedback f /\
          OpenAI.Query.target_id f = OpenAI.Query.join_column key i /\
          In (joined_row i f) (selected inferences feedback key)).
Proof.
  split; [reflexivity |]. split; [| split].
  - intros row Hrow. unfold OpenAI.Query.run_query in Hrow.
    rewrite <- (firstn_skipn MAX_SAMPLES (selected inferences feedback key)).
    apply in_or_app. now left.
  - intros row Hrow. apply selected_In in Hrow.
    destruct Hrow as (i & f & Hi & Hfn & Hsub & Ht & ->).
    exists i, f. split; [exact Hi |]. split; [exact Hfn |].
    split; [now apply subquery_first |]. split; [exact Ht | reflexivity].
  - intros i Hi Hfn Hex.
    destruct (subquery_first_exists feedback _ Hex) as (f & Hsub & Ht).
    exists f. split; [now apply subquery_first |]. split; [exact Ht |].
    apply selected_In. exists i, f. auto.
Qed.

End QueryFacts.

(** The inference [i1] has a passing feedback row, so it is selected. *)
Lemma query_selects_latest_passing_feedback_witness :
  exists f,
    latest_among (passing "exact_match" ">=" (1 # 2)) Demo.feedback f /\
    OpenAI.Query.target_id f = "i1" /\
    In (joined_row Demo.inference f)
       (OpenAI.Query.selected "float" "max" "extract_entities" "exact_match" (1 # 2)
          [Demo.inference] Demo.feedback "id").
Proof.
  apply (proj2 (proj2 (proj2
           (query_selects_latest_passing_feedback "float" "max" "extract_entities" "exact_match"
              (1 # 2) 100 [Demo.inference] Demo.feedback "id"))) Demo.inference).
  - left. reflexivity.
  - reflexivity.
  - exists (OpenAI.Query.mkFeedbackRow "i1" "exact_match" (9 # 10) 1).
    split; [left; reflexivity |]. split; [split; reflexivity | reflexivity].
Defined.

(** C1 as stated fails: the most recent feedback of inference [i1] is 0.1,
    below the threshold 0.5, and the query still returns the inference, with
    the older value 0.9. *)
Lemma older_passing_feedback_is_selected :
  OpenAI.Query.df [] [Demo.inference] Demo.feedback [] "json" "float" "inference" "max"
    "extract_entities" "exact_match" (1 # 2) 100
  = Val [OpenAI.Query.mkDfRow "gpt_4o_mini" "{}" "{}" (9 # 10) "ep1"]
  /\ ~ selects_by_latest_feedback
         (OpenAI.Query.run_query "float" "max" "extract_entities" "exact_match" (1 # 2) 100
            [Demo.inference] Demo.feedback "id")
         [Demo.inference] Demo.feedback "id" "exact_match" ">=" (1 # 2).
Proof.
  split; [reflexivity |].
  intros H. destruct (H _ (or_introl eq_refl)) as (i & f & _ & Hlatest & _ & Hpass & _).
  destruct Hlatest as (Hin & _ & Hmax).
  destruct Hin as [<- | [<- | []]].
  - specialize (Hmax (OpenAI.Query.mkFeedbackRow "i1" "exact_match" (1 # 10) 2)
                  (or_intror (or_introl eq_refl)) eq_refl eq_refl).
    simpl in Hmax. lia.
  - discriminate Hpass.
Qed.

(** ** Further facts about the normalizers *)

Lemma tool_calls_of_app (dumps : Json -> string) (l1 l2 : list ContentBlock) :
  tool_calls_of dumps (l1 ++ l2) = tool_calls_of dumps l1 ++ tool_calls_of dumps l2.
Proof. unfold tool_calls_of. apply flat_map_app. Qed.

Section ShapeFacts.

Variable render_template : string -> list (string * Json) -> Exc string.
Variable json_dumps : Json -> string.

(** The loop of the OpenAI normalizer, with the tool calls made explicit;
    a rendered block list does not hold both tool results and tool calls. *)
Lemma openai_loop_shape (blocks : list ContentBlock) :
  forall (r : string) (c : list string) (t rms out : list Json),
    OpenAI.render_message_loop render_template json_dumps r blocks c t rms = Val (Some out) ->
    exists texts,
      map (rendered_text render_template r) (filter text_bearing blocks) = map Val texts /\
      (tool_results blocks = [] \/ tool_calls_of json_dumps blocks = []) /\
      ((r =? "user") = false -> tool_results blocks = []) /\
      ((r =? "assistant") = false -> tool_calls_of json_dumps blocks = []) /\
      out = rms ++ tool_results blocks
            ++ OpenAI.finish_message r (c ++ texts) (t ++ tool_calls_of json_dumps blocks) [].
Proof.
  induction blocks as [| b rest IH]; intros r c t rms out H; simpl in H.
  - exists []. repeat split; auto.
    injection H as <-. rewrite !app_nil_r. simpl. apply openai_finish_message_app.
  - destruct b as [v | v | th | i n a | i res | ty].
    + assert (exists s, rendered_text render_template r (Text v) = Val s /\
                OpenAI.render_message_loop render_template json_dumps
                  r rest (c ++ [s]) t rms = Val (Some out)) as (s & Hs & Hrest).
      { text_value v; eauto. }
      destruct (IH _ _ _ _ _ Hrest) as (texts & Htexts & Hex & Hu & Ha & ->).
      exists (s :: texts). cbn [filter text_bearing map].
      rewrite Hs, Htexts, <- app_assoc. repeat split; auto.
    + destruct (IH _ _ _ _ _ H) as (texts & Htexts & Hex & Hu & Ha & ->).
      exists (v :: texts). cbn [filter text_bearing map rendered_text].
      rewrite Htexts, <- app_assoc. repeat split; auto.
    + destruct (IH _ _ _ _ _ H) as (texts & Htexts & Hex & Hu & Ha & ->).
      exists (think th :: texts). cbn [filter text_bearing map rendered_text].
      rewrite Htexts, <- app_assoc. repeat split; auto.
    + destruct (r =? "assistant") eqn:Hr; [| discriminate H].
      destruct (IH _ _ _ _ _ H) as (texts & Htexts & Hex & Hu & Ha & ->).
      exists texts. cbn [filter text_bearing].
      assert ((r =? "user") = false) as Hnu.
      { apply String.eqb_eq in Hr. subst r. reflexivity. }
      change (tool_results (ToolCall i n a :: rest)) with (tool_results rest).
      change (tool_calls_of json_dumps (ToolCall i n a :: rest))
        with ([tool_call_dict json_dumps i n a] ++ tool_calls_of json_dumps rest).
      rewrite <- !app_assoc. repeat split; auto; discriminate.
    + destruct (r =? "user") eqn:Hr; [| discriminate H].
      destruct (IH _ _ _ _ _ H) as (texts & Htexts & Hex & Hu & Ha & ->).
      exists texts. cbn [filter text_bearing].
      assert ((r =? "assistant") = false) as Hna.
      { apply String.eqb_eq in Hr. subst r. reflexivity. }
      change (tool_calls_of json_dumps (ToolResult i res :: rest))
        with (tool_calls_of json_dumps rest).
      change (tool_results (ToolResult i res :: rest))
        with ([tool_message i res] ++ tool_results rest).
      rewrite <- !app_assoc. repeat split; auto; discriminate.
    + discriminate H.
Qed.

Lemma fireworks_loop_shape (drop : bool) (blocks : list ContentBlock) :
  forall (r : string) (c : list string) (t rms out : list Json),
    Fireworks.render_message_loop render_template json_dumps drop r blocks c t rms
      = Val (Some out) ->
    exists texts,
      map (rendered_text render_template r) (filter text_bearing blocks) = map Val texts /\
      (tool_results blocks = [] \/ tool_calls_of json_dumps blocks = []) /\
      ((r =? "user") = false -> tool_results blocks = []) /\
      ((r =? "assistant") = false -> tool_calls_of json_dumps blocks = []) /\
      (drop = true -> tool_results blocks = [] /\ tool_calls_of json_dumps blocks = []
                      /\ forallb (fun b => negb (Fireworks.not_text_or_raw_text b)) blocks = true) /\
      out = rms ++ tool_results blocks
            ++ Fireworks.finish_message r (c ++ texts) (t ++ tool_calls_of json_dumps blocks) [].
Proof.
  induction blocks as [| b rest IH]; intros r c t rms out H; simpl in H.
  - exists []. repeat split; auto.
    injection H as <-. rewrite !app_nil_r. simpl. apply fireworks_finish_message_app.
  - destruct (Fireworks.not_text_or_raw_text b && drop) eqn:Hguard; [discriminate H |].
    destruct b as [v | v | th | i n a | i res | ty].
    + assert (exists s, rendered_text render_template r (Text v) = Val s /\
                Fireworks.render_message_loop render_template json_dumps drop
                  r rest (c ++ [s]) t rms = Val (Some out)) as (s & Hs & Hrest).
      { text_value v; eauto. }
      destruct (IH _ _ _ _ _ Hrest) as (texts & Htexts & Hex & Hu & Ha & Hd & ->).
      exists (s :: texts). cbn [filter text_bearing map].
      rewrite Hs, Htexts, <- app_assoc. repeat split; auto; now apply Hd.
    + destruct (IH _ _ _ _ _ H) as (texts & Htexts & Hex & Hu & Ha & Hd & ->).
      exists (v :: texts). cbn [filter text_bearing map rendered_text].
      rewrite Htexts, <- app_assoc. repeat split; auto; now apply Hd.
    + simpl in Hguard. subst drop.
      destruct (IH _ _ _ _ _ H) as (texts & Htexts & Hex & Hu & Ha & Hd & ->).
      exists (think th :: texts). cbn [filter text_bearing map rendered_text].
      rewrite Htexts, <- app_assoc. repeat split; auto; discriminate.
    + simpl in Hguard. subst drop.
      destruct (r =? "assistant") eqn:Hr; [| discriminate H]. simpl in H.
      destruct (IH _ _ _ _ _ H) as (texts & Htexts & Hex & Hu & Ha & Hd & ->).
      exists texts. cbn [filter text_bearing].
      assert ((r =? "user") = false) as Hnu.
      { apply String.eqb_eq in Hr. subst r. reflexivity. }
      change (tool_results (ToolCall i n a :: rest)) with (tool_results rest).
      change (tool_calls_of json_dumps (ToolCall i n a :: rest))
        with ([tool_call_dict json_dumps i n a] ++ tool_calls_of json_dumps rest).
      rewrite <- !app_assoc. repeat split; auto; discriminate.
    + simpl in Hguard. subst drop.
      destruct (r =? "user") eqn:Hr; [| discriminate H]. simpl in H.
      destruct (IH _ _ _ _ _ H) as (texts & Htexts & Hex & Hu & Ha & Hd & ->).
      exists texts. cbn [filter text_bearing].
      assert ((r =? "assistant") = false) as Hna.
      { apply String.eqb_eq in Hr. subst r. reflexivity. }
      change (tool_calls_of json_dumps (ToolResult i res :: rest))
        with (tool_calls_of json_dumps rest).
      change (tool_results (ToolResult i res :: rest))
        with ([tool_message i res] ++ tool_results rest).
      rewrite <- !app_assoc. repeat split; auto; discriminate.
    + discriminate H.
Qed.

End ShapeFacts.

(** X1.  A rendered message is made of the [tool] messages of its tool
    results, in source order, followed by at most one message of its role;
    that message carries the texts of the text-bearing blocks as its content
    when there are any, and the tool calls of the message, in source order
    and with their arguments serialized by [json.dumps], when there are any.
    A rendered message holds tool results or tool calls, never both. *)
Theorem rendered_message_shape
    (render_template : string -> list (string * Json) -> Exc string)
    (json_dumps : Json -> string) (drop : bool) (m : Message) :
  (forall out,
      OpenAI.render_message render_template json_dumps m = Val (Some out) ->
      exists texts,
        map (rendered_text render_template (role m)) (filter text_bearing (content m))
          = map Val texts /\
        (tool_results (content m) = [] \/ tool_calls_of json_dumps (content m) = []) /\
        out = tool_results (content m)
              ++ (if truthy texts || truthy (tool_calls_of json_dumps (content m))
                  then [role_dict (role m)
                          (if truthy texts then Some (JArr (map text_part texts)) else None)
                          (tool_calls_of json_dumps (content m))]
                  else []))
  /\ (forall out,
        Fireworks.render_message render_template json_dumps drop m = Val (Some out) ->
        exists texts,
          map (rendered_text render_template (role m)) (filter text_bearing (content m))
            = map Val texts /\
          (tool_results (content m) = [] \/ tool_calls_of json_dumps (content m) = []) /\
          out = tool_results (content m)
                ++ (if truthy texts || truthy (tool_calls_of json_dumps (content m))
                    then [role_dict (role m)
                            (if truthy texts then Some (JStr (String.concat newline texts)) else None)
                            (tool_calls_of json_dumps (content m))]
                    else [])).
Proof.
  split; intros out H.
  - apply openai_render_message_val, openai_loop_shape in H.
    destruct H as (texts & Htexts & Hex & _ & _ & ->).
    exists texts. repeat split; auto.
  - apply fireworks_render_message_val, fireworks_loop_shape in H.
    destruct H as (texts & Htexts & Hex & _ & _ & _ & ->).
    exists texts. repeat split; auto.
Qed.

(** An assistant message with a thought, a text and two tool calls. *)
Lemma rendered_message_shape_witness :
  exists texts,
    map (rendered_text Demo.render_template "assistant")
        (filter text_bearing (content Cases.assistant_with_calls)) = map Val texts /\
    (tool_results (content Cases.assistant_with_calls) = []
     \/ tool_calls_of Demo.json_dumps (content Cases.assistant_with_calls) = []) /\
    [JObj [("role", JStr "assistant");
           ("content", JArr [text_part "<think>plan</think>"; text_part "Searching"]);
           ("tool_calls", JArr [tool_call_dict Demo.json_dumps "c1" "search" (JObj [("q", JStr "x")]);
                                tool_call_dict Demo.json_dumps "c2" "load" JNull])]]
    = tool_results (content Cases.assistant_with_calls)
      ++ (if truthy texts || truthy (tool_calls_of Demo.json_dumps (content Cases.assistant_with_calls))
          then [role_dict "assistant"
                  (if truthy texts then Some (JArr (map text_part texts)) else None)
                  (tool_calls_of Demo.json_dumps (content Cases.assistant_with_calls))]
          else []).
Proof.
  apply (proj1 (rendered_message_shape Demo.render_template Demo.json_dumps true
                  Cases.assistant_with_calls)).
  reflexivity.
Defined.

Section UnsupportedFacts.

Variable render_template : string -> list (string * Json) -> Exc string.
Variable json_dumps : Json -> string.

Lemma openai_loop_unsupported (r : string) (b : ContentBlock) (pre post : list ContentBlock) :
  unsupported_for r b = true ->
  forall (c : list string) (t rms : list Json),
    (forall out, OpenAI.render_message_loop render_template json_dumps r (pre ++ b :: post) c t rms
                 <> Val (Some out))
    /\ (forall o, OpenAI.render_message_loop render_template json_dumps r pre c t rms = Val (Some o) ->
                  OpenAI.render_message_loop render_template json_dumps r (pre ++ b :: post) c t rms
                  = Val None).
Proof.
  intros Hb. induction pre as [| a pre IH]; intros c t rms.
  - assert (OpenAI.render_message_loop render_template json_dumps r (b :: post) c t rms = Val None)
      as Hnone.
    { destruct b as [v | v | th | i n a | i res | ty]; simpl in *; try discriminate Hb.
      - apply negb_true_iff in Hb. now rewrite Hb.
      - apply negb_true_iff in Hb. now rewrite Hb.
      - reflexivity. }
    simpl app. rewrite Hnone. split; [discriminate | reflexivity].
  - simpl. destruct a as [v | v | th | i n a | i res | ty]; try apply IH.
    + destruct v; simpl; try (split; [discriminate | intros; discriminate]); try apply IH.
      destruct (render_template r fields); simpl;
        [apply IH | split; [discriminate | intros; discriminate]].
    + destruct (r =? "assistant"); [apply IH | split; [discriminate | intros; discriminate]].
    + destruct (r =? "user"); [apply IH | split; [discriminate | intros; discriminate]].
    + split; [discriminate | intros; discriminate].
Qed.

Lemma fireworks_loop_unsupported (drop : bool) (r : string) (b : ContentBlock)
    (pre post : list ContentBlock) :
  unsupported_for r b = true ->
  forall (c : list string) (t rms : list Json),
    (forall out, Fireworks.render_message_loop render_template json_dumps drop r
                   (pre ++ b :: post) c t rms <> Val (Some out))
    /\ (forall o, Fireworks.render_message_loop render_template json_dumps drop r pre c t rms
                  = Val (Some o) ->
                  Fireworks.render_message_loop render_template json_dumps drop r
                    (pre ++ b :: post) c t rms = Val None).
Proof.
  intros Hb. induction pre as [| a pre IH]; intros c t rms.
  - assert (Fireworks.render_message_loop render_template json_dumps drop r (b :: post) c t rms
            = Val None) as Hnone.
    { destruct b as [v | v | th | i n a | i res | ty]; simpl in *; try discriminate Hb.
      - apply negb_true_iff in Hb. rewrite Hb. now destruct drop.
      - apply negb_true_iff in Hb. rewrite Hb. now destruct drop.
      - now destruct drop. }
    simpl app. rewrite Hnone. split; [discriminate | reflexivity].
  - simpl. destruct (Fireworks.not_text_or_raw_text a && drop);
      [split; [discriminate | intros; discriminate] |].
    destruct a as [v | v | th | i n a | i res | ty]; try apply IH.
    + destruct v; simpl; try (split; [discriminate | intros; discriminate]); try apply IH.
      destruct (render_template r fields); simpl;
        [apply IH | split; [discriminate | intros; discriminate]].
    + destruct ((r =? "assistant") && negb drop);
        [apply IH | split; [discriminate | intros; discriminate]].
    + destruct ((r =? "user") && negb drop);
        [apply IH | split; [discriminate | intros; discriminate]].
    + split; [discriminate | intros; discriminate].
Qed.

End UnsupportedFacts.

(** X2.  A message that holds a block its role does not take (an unknown
    block, a tool call outside an assistant message, a tool result outside a
    user message) is never rendered, whatever its other blocks, in both
    notebooks and for both values of [DROP_INVALID_MESSAGES]; when the
    blocks before it render, the result is the drop signal [None], not an
    exception. *)
Theorem unsupported_block_drops_message
    (render_template : string -> list (string * Json) -> Exc string)
    (json_dumps : Json -> string) (drop : bool)
    (r : string) (b : ContentBlock) (pre post : list ContentBlock) :
  unsupported_for r b = true ->
  (forall out,
      OpenAI.render_message render_template json_dumps (mkMessage r (pre ++ b :: post))
      <> Val (Some out))
  /\ (forall out,
        Fireworks.render_message render_template json_dumps drop (mkMessage r (pre ++ b :: post))
        <> Val (Some out))
  /\ (forall o,
        OpenAI.render_message render_template json_dumps (mkMessage r pre) = Val (Some o) ->
        OpenAI.render_message render_template json_dumps (mkMessage r (pre ++ b :: post))
        = Val None)
  /\ (forall o,
        Fireworks.render_message render_template json_dumps drop (mkMessage r pre) = Val (Some o) ->
        Fireworks.render_message render_template json_dumps drop (mkMessage r (pre ++ b :: post))
        = Val None).
Proof.
  intros Hb. unfold OpenAI.render_message, Fireworks.render_message. cbn [role content].
  destruct ((r =? "user") || (r =? "assistant")).
  - pose proof (openai_loop_unsupported render_template json_dumps r b pre post Hb [] [] [])
      as (Ho1 & Ho2).
    pose proof (fireworks_loop_unsupported render_template json_dumps drop r b pre post Hb [] [] [])
      as (Hf1 & Hf2).
    repeat split; auto.
  - repeat split; intros; discriminate.
Qed.

(** A tool call in a user message, after a text. *)
Lemma unsupported_block_drops_message_witness :
  OpenAI.render_message Demo.render_template Demo.json_dumps
    (mkMessage "user" ([RawText "Hi"] ++ ToolCall "c1" "search" JNull :: [RawText "there"]))
  = Val None.
Proof.
  apply (proj1 (proj2 (proj2
           (unsupported_block_drops_message Demo.render_template Demo.json_dumps true
              "user" (ToolCall "c1" "search" JNull) [RawText "Hi"] [RawText "there"] eq_refl)))
           [JObj [("role", JStr "user"); ("content", JArr [text_part "Hi"])]]).
  reflexivity.
Defined.

(** X3.  With [DROP_INVALID_MESSAGES] on, a message the Fireworks
    normalizer renders holds only [text] and [raw_text] blocks, and it is
    rendered as at most one message: its role and one content string, with
    no [tool] message and no [tool_calls] entry. *)
Theorem fireworks_drop_invalid_keeps_text_only
    (render_template : string -> list (string * Json) -> Exc string)
    (json_dumps : Json -> string) (m : Message) (out : list Json) :
  Fireworks.render_message render_template json_dumps true m = Val (Some out) ->
  forallb (fun b => negb (Fireworks.not_text_or_raw_text b)) (content m) = true
  /\ exists texts,
       map (rendered_text render_template (role m)) (filter text_bearing (content m))
         = map Val texts /\
       out = match texts with
             | [] => []
             | _ :: _ => [JObj [("role", JStr (role m));
                                ("content", JStr (String.concat newline texts))]]
             end.
Proof.
  intros H. apply fireworks_render_message_val, fireworks_loop_shape in H.
  destruct H as (texts & Htexts & _ & _ & _ & Hd & ->).
  destruct (Hd eq_refl) as (-> & -> & Hall).
  split; [exact Hall |]. exists texts. split; [exact Htexts |].
  destruct texts; reflexivity.
Qed.

(** A message of a templated text and a raw text. *)
Lemma fireworks_drop_invalid_witness :
  forallb (fun b => negb (Fireworks.not_text_or_raw_text b)) [Text (JObj []); RawText "b"] = true
  /\ exists texts,
       map (rendered_text Demo.render_template "user") (filter text_bearing [Text (JObj []); RawText "b"])
         = map Val texts /\
       [JObj [("role", JStr "user");
              ("content", JStr (String.concat newline ["rendered user"; "b"]))]]
       = match texts with
         | [] => []
         | _ :: _ => [JObj [("role", JStr "user");
                            ("content", JStr (String.concat newline texts))]]
         end.
Proof.
  apply (fireworks_drop_invalid_keeps_text_only Demo.render_template Demo.json_dumps
           (mkMessage "user" [Text (JObj []); RawText "b"])).
  reflexivity.
Defined.

(** ** Further facts about the output renderer *)

Lemma openai_render_output_loop_spec (json_dumps : Json -> string) (blocks : list OutputBlock) :
  forall (c : list string) (t : list Json),
    OpenAI.render_output_loop json_dumps blocks c t
    = if existsb is_other blocks then None
      else Some (OpenAI.finish_output (c ++ output_texts blocks)
                   (t ++ output_calls json_dumps blocks)).
Proof.
  induction blocks as [| b rest IH]; intros c t; simpl.
  - now rewrite !app_nil_r.
  - destruct b as [tx | th | i n a | ty]; simpl; rewrite ?IH;
      try (destruct (existsb is_other rest); [reflexivity | now rewrite <- app_assoc]).
    reflexivity.
Qed.

Lemma fireworks_render_output_loop_off (json_dumps : Json -> string) (blocks : list OutputBlock) :
  forall (c : list string) (t : list Json),
    Fireworks.render_output_loop json_dumps false blocks c t
    = if existsb is_other blocks then None
      else Some (Fireworks.finish_output (c ++ output_texts blocks)
                   (t ++ output_calls json_dumps blocks)).
Proof.
  induction blocks as [| b rest IH]; intros c t; simpl.
  - now rewrite !app_nil_r.
  - destruct b as [tx | th | i n a | ty]; simpl; rewrite ?IH;
      try (destruct (existsb is_other rest); [reflexivity | now rewrite <- app_assoc]).
    reflexivity.
Qed.

Lemma fireworks_render_output_loop_on (json_dumps : Json -> string) (blocks : list OutputBlock) :
  forall (c : list string) (t : list Json),
    Fireworks.render_output_loop json_dumps true blocks c t
    = if forallb is_output_text blocks
      then Some (Fireworks.finish_output (c ++ output_texts blocks) t)
      else None.
Proof.
  induction blocks as [| b rest IH]; intros c t; simpl.
  - now rewrite !app_nil_r.
  - destruct b as [tx | th | i n a | ty]; simpl; try reflexivity.
    rewrite IH. destruct (forallb is_output_text rest); [now rewrite <- app_assoc | reflexivity].
Qed.

(** X4.  For a chat function, rendering a list of output blocks never
    raises.  The OpenAI notebook, and the Fireworks notebook with
    [DROP_INVALID_MESSAGES] off, drop the row exactly when a block is
    neither text, thought nor tool call, and otherwise return one assistant
    message with the texts (thoughts wrapped) and the tool calls in source
    order.  With [DROP_INVALID_MESSAGES] on, the Fireworks notebook drops
    the row unless every block is a text block, and the message has no
    tool calls.  An empty output gives the bare message [{"role":
    "assistant"}]. *)
Theorem chat_output_rendering (json_dumps : Json -> string) (blocks : list OutputBlock) :
  OpenAI.render_output json_dumps "chat" (ChatOutput blocks)
  = Val (if existsb is_other blocks then None
         else Some (role_dict "assistant"
                      (if truthy (output_texts blocks)
                       then Some (JArr (map text_part (output_texts blocks))) else None)
                      (output_calls json_dumps blocks)))
  /\ Fireworks.render_output json_dumps "chat" false (ChatOutput blocks)
     = Val (if existsb is_other blocks then None
            else Some (role_dict "assistant"
                         (if truthy (output_texts blocks)
                          then Some (JStr (String.concat newline (output_texts blocks))) else None)
                         (output_calls json_dumps blocks)))
  /\ Fireworks.render_output json_dumps "chat" true (ChatOutput blocks)
     = Val (if forallb is_output_text blocks
            then Some (role_dict "assistant"
                         (if truthy (output_texts blocks)
                          then Some (JStr (String.concat newline (output_texts blocks))) else None)
                         [])
            else None).
Proof.
  unfold OpenAI.render_output, Fireworks.render_output.
  change ("chat" =? "json") with false. change ("chat" =? "chat") with true. cbv iota.
  rewrite openai_render_output_loop_spec, fireworks_render_output_loop_off,
    fireworks_render_output_loop_on.
  repeat split.
Qed.

Lemma role_of_role_dict (r : string) (c : option Json) (t : list Json) :
  role_of (role_dict r c t) = Some (JStr r).
Proof. reflexivity. Qed.

(** Whatever [render_output] returns is an assistant message. *)
Lemma openai_render_output_role (json_dumps : Json -> string) (function_type : string)
    (o : Output) (j : Json) :
  OpenAI.render_output json_dumps function_type o = Val (Some j) ->
  role_of j = Some (JStr "assistant").
Proof.
  unfold OpenAI.render_output.
  destruct (function_type =? "json").
  - destruct o as [fields | blocks]; [| discriminate].
    destruct (assoc "raw" fields); [| discriminate]. intros H. now injection H as <-.
  - destruct (function_type =? "chat"); [| discriminate].
    destruct o as [[| f fields] | blocks]; try discriminate.
    + intros H. now injection H as <-.
    + rewrite openai_render_output_loop_spec.
      destruct (existsb is_other blocks); [discriminate |]. intros H. now injection H as <-.
Qed.

Lemma fireworks_render_output_role (json_dumps : Json -> string) (function_type : string)
    (drop : bool) (o : Output) (j : Json) :
  Fireworks.render_output json_dumps function_type drop o = Val (Some j) ->
  role_of j = Some (JStr "assistant").
Proof.
  unfold Fireworks.render_output.
  destruct (function_type =? "json").
  - destruct o as [fields | blocks]; [| discriminate].
    destruct (assoc "raw" fields); [| discriminate]. intros H. now injection H as <-.
  - destruct (function_type =? "chat"); [| discriminate].
    destruct o as [[| f fields] | blocks]; try discriminate.
    + intros H. now injection H as <-.
    + destruct drop.
      * rewrite fireworks_render_output_loop_on.
        destruct (forallb is_output_text blocks); [| discriminate]. intros H. now injection H as <-.
      * rewrite fireworks_render_output_loop_off.
        destruct (existsb is_other blocks); [discriminate |]. intros H. now injection H as <-.
Qed.

(** ** Further facts about the assemblers *)

Lemma system_messages_val (render_template : string -> list (string * Json) -> Exc string)
    (system_template_path : option string) (fi : FunctionInput) (sys : list Json) :
  system_messages render_template system_template_path fi = Val sys ->
  exists p s,
    system_template_path = Some p /\
    render_template_kw render_template "system" (system_data fi) = Val s /\
    sys = [system_dict (JStr s)].
Proof.
  unfold system_messages. fold (system_data fi).
  destruct (py_len (system_data fi)) as [n | e]; [| discriminate]. simpl.
  destruct system_template_path as [p |].
  - destruct (0 <? n)%nat; simpl;
      (destruct (render_template_kw render_template "system" (system_data fi)) as [s | e];
       [| discriminate]); simpl; intros H; injection H as <-; eauto.
  - destruct (0 <? n)%nat; discriminate.
Qed.

Lemma tool_results_roles (blocks : list ContentBlock) :
  Forall conversation_role (tool_results blocks).
Proof.
  induction blocks as [| b rest IH]; [constructor |].
  destruct b; simpl; auto. constructor; [now left | exact IH].
Qed.

Lemma openai_rendered_roles (render_template : string -> list (string * Json) -> Exc string)
    (json_dumps : Json -> string) (m : Message) (out : list Json) :
  OpenAI.render_message render_template json_dumps m = Val (Some out) ->
  Forall conversation_role out.
Proof.
  intros H.
  assert (role m = "user" \/ role m = "assistant") as Hrole.
  { unfold OpenAI.render_message in H.
    destruct (role m =? "user") eqn:Hu; [left; now apply String.eqb_eq |].
    destruct (role m =? "assistant") eqn:Ha; [right; now apply String.eqb_eq | discriminate]. }
  apply openai_render_message_val, openai_loop_shape in H.
  destruct H as (texts & _ & _ & _ & _ & ->). cbn [app].
  apply Forall_app. split; [apply tool_results_roles |].
  unfold OpenAI.finish_message. destruct (truthy _ || truthy _); [| constructor].
  constructor; [| constructor].
  unfold conversation_role. rewrite role_of_role_dict.
  destruct Hrole as [-> | ->]; auto.
Qed.

Lemma fireworks_rendered_roles (render_template : string -> list (string * Json) -> Exc string)
    (json_dumps : Json -> string) (drop : bool) (m : Message) (out : list Json) :
  Fireworks.render_message render_template json_dumps drop m = Val (Some out) ->
  Forall conversation_role out.
Proof.
  intros H.
  assert (role m = "user" \/ role m = "assistant") as Hrole.
  { unfold Fireworks.render_message in H.
    destruct (role m =? "user") eqn:Hu; [left; now apply String.eqb_eq |].
    destruct (role m =? "assistant") eqn:Ha; [right; now apply String.eqb_eq | discriminate]. }
  apply fireworks_render_message_val, fireworks_loop_shape in H.
  destruct H as (texts & _ & _ & _ & _ & _ & ->). cbn [app].
  apply Forall_app. split; [apply tool_results_roles |].
  unfold Fireworks.finish_message. destruct (truthy _ || truthy _); [| constructor].
  constructor; [| constructor].
  unfold conversation_role. rewrite role_of_role_dict.
  destruct Hrole as [-> | ->]; auto.
Qed.

Lemma rendered_roles_concat (render : Message -> Exc (option (list Json)))
    (msgs : list Message) (rendered : list (list Json)) :
  (forall m out, render m = Val (Some out) -> Forall conversation_role out) ->
  Forall2 (fun m r => render m = Val (Some r)) msgs rendered ->
  Forall conversation_role (List.concat rendered).
Proof.
  intros Hrender HF. induction HF as [| m r ms rs Hm _ IH]; simpl; [constructor |].
  apply Forall_app. split; [eapply Hrender; eassumption | exact IH].
Qed.



Lemma messages_loop_prefix (render : Message -> Exc (option (list Json)))
    (pre rest : list Message) :
  Forall (fun x => exists r, render x = Val (Some r)) pre ->
  forall acc, exists acc',
    messages_loop render (pre ++ rest) acc = messages_loop render rest acc'.
Proof.
  induction pre as [| a pre IH]; intros Hall acc; simpl.
  - now exists acc.
  - inversion Hall as [| ? ? (r & Hr) Hrest]; subst. rewrite Hr. apply IH, Hrest.
Qed.

Lemma assemble_first_failure (sys : list Json) (render : Message -> Exc (option (list Json)))
    (pre post : list Message) (m : Message) (out : Exc (option Json)) :
  Forall (fun x => exists r, render x = Val (Some r)) pre ->
  (render m = Val None -> assemble (Val sys) render (pre ++ m :: post) out = Val None)
  /\ (forall e, render m = Raise e -> assemble (Val sys) render (pre ++ m :: post) out = Raise e).
Proof.
  intros Hall. unfold assemble. simpl.
  destruct (messages_loop_prefix render pre (m :: post) Hall sys) as (acc' & ->). simpl.
  split; [intros -> | intros e ->]; reflexivity.
Qed.

(** X6.  The first input message that is not rendered decides the row,
    once the system message is resolved: when it signals drop the row is
    dropped, and when it raises the exception leaves the assembler, whatever
    the later messages and the output are.  A message whose role is neither
    [user] nor [assistant] raises [AssertionError]. *)
Theorem first_failing_message_decides
    (render_template : string -> list (string * Json) -> Exc string)
    (json_dumps : Json -> string) (function_type : string)
    (system_template_path : option string) (drop : bool)
    (sys : list Json) (pre post : list Message) (m : Message) (sd : option Json) (o : Output) :
  system_messages render_template system_template_path (mkFunctionInput sd (pre ++ m :: post))
    = Val sys ->
  Forall (fun x => exists r, OpenAI.render_message render_template json_dumps x = Val (Some r)) pre ->
  Forall (fun x => exists r, Fireworks.render_message render_template json_dumps drop x
                             = Val (Some r)) pre ->
  let openai :=
    OpenAI.sample_to_openai_messages render_template json_dumps function_type
      system_template_path (OpenAI.mkSample (mkFunctionInput sd (pre ++ m :: post)) o) in
  let fireworks :=
    Fireworks.sample_to_conversational_messages render_template json_dumps function_type
      system_template_path drop (Fireworks.mkSample (mkFunctionInput sd (pre ++ m :: post)) o) in
  (OpenAI.render_message render_template json_dumps m = Val None -> openai = Val None)
  /\ (forall e, OpenAI.render_message render_template json_dumps m = Raise e -> openai = Raise e)
  /\ (Fireworks.render_message render_template json_dumps drop m = Val None -> fireworks = Val None)
  /\ (forall e, Fireworks.render_message render_template json_dumps drop m = Raise e ->
                fireworks = Raise e)
  /\ (role m <> "user" -> role m <> "assistant" ->
      openai = Raise (AssertionError ("Invalid role: " ++ role m))
      /\ fireworks = Raise (AssertionError ("Invalid role: " ++ role m))).
Proof.
  intros Hsys Ho Hf openai fireworks. subst openai fireworks.
  rewrite openai_sample_assemble, fireworks_sample_assemble, Hsys. cbn [messages].
  destruct (assemble_first_failure sys (OpenAI.render_message render_template json_dumps)
              pre post m (OpenAI.render_output json_dumps function_type o) Ho) as (Ho1 & Ho2).
  destruct (assemble_first_failure sys (Fireworks.render_message render_template json_dumps drop)
              pre post m (Fireworks.render_output json_dumps function_type drop o) Hf)
    as (Hf1 & Hf2).
  split; [exact Ho1 |]. split; [exact Ho2 |]. split; [exact Hf1 |]. split; [exact Hf2 |].
  intros Hu Ha. apply String.eqb_neq in Hu, Ha. split.
  - apply Ho2. unfold OpenAI.render_message. now rewrite Hu, Ha.
  - apply Hf2. unfold Fireworks.render_message. now rewrite Hu, Ha.
Qed.

(** A [system]-role input message after a rendered one, before a message
    that would be dropped: the assertion fails. *)
Lemma first_failing_message_decides_witness :
  OpenAI.sample_to_openai_messages Cases.render_template Demo.json_dumps "json"
    (Some "system.minijinja") (OpenAI.mkSample Cases.input_with_bad_role Demo.json_output)
  = Raise (AssertionError "Invalid role: system").
Proof.
  refine (proj1 (proj2 (proj2 (proj2 (proj2
            (first_failing_message_decides Cases.render_template Demo.json_dumps "json"
               (Some "system.minijinja") false [system_dict (JStr "You are helpful.")]
               [mkMessage "user" [RawText "Hi"]] [mkMessage "user" [Unknown "image"]]
               (mkMessage "system" [RawText "Be brief"]) None Demo.json_output
               eq_refl _ _)))) _ _)).
  - repeat constructor. eexists. reflexivity.
  - repeat constructor. eexists. reflexivity.
  - discriminate.
  - discriminate.
Defined.

Section TextFailure.

Variable render_template : string -> list (string * Json) -> Exc string.
Variable json_dumps : Json -> string.

Lemma openai_loop_text_failure (r : string) (v : Json) (e : PyError)
    (pre post : list ContentBlock) :
  rendered_text render_template r (Text v) = Raise e ->
  forall (c : list string) (t rms o : list Json),
    OpenAI.render_message_loop render_template json_dumps r pre c t rms = Val (Some o) ->
    OpenAI.render_message_loop render_template json_dumps r (pre ++ Text v :: post) c t rms
    = Raise e.
Proof.
  intros Hv. induction pre as [| a pre IH]; intros c t rms o H.
  - simpl. destruct v; simpl in *; try discriminate Hv; try (now rewrite Hv);
      injection Hv as <-; reflexivity.
  - simpl in *. destruct a as [w | w | th | i n a | i res | ty]; eauto; try discriminate H.
    + destruct w; simpl in *; try discriminate H; eauto.
      destruct (render_template r fields); simpl in *; [eauto | discriminate H].
    + destruct (r =? "assistant"); [eauto | discriminate H].
    + destruct (r =? "user"); [eauto | discriminate H].
Qed.

Lemma fireworks_loop_text_failure (drop : bool) (r : string) (v : Json) (e : PyError)
    (pre post : list ContentBlock) :
  rendered_text render_template r (Text v) = Raise e ->
  forall (c : list string) (t rms o : list Json),
    Fireworks.render_message_loop render_template json_dumps drop r pre c t rms = Val (Some o) ->
    Fireworks.render_message_loop render_template json_dumps drop r (pre ++ Text v :: post) c t rms
    = Raise e.
Proof.
  intros Hv. induction pre as [| a pre IH]; intros c t rms o H.
  - simpl. destruct v; simpl in *; try discriminate Hv; try (now rewrite Hv);
      injection Hv as <-; reflexivity.
  - simpl in *. destruct (Fireworks.not_text_or_raw_text a && drop); [discriminate H |].
    destruct a as [w | w | th | i n a | i res | ty]; eauto; try discriminate H.
    + destruct w; simpl in *; try discriminate H; eauto.
      destruct (render_template r fields); simpl in *; [eauto | discriminate H].
    + destruct ((r =? "assistant") && negb drop); [eauto | discriminate H].
    + destruct ((r =? "user") && negb drop); [eauto | discriminate H].
Qed.

End TextFailure.

(** X7.  A [text] block whose value fails to render is an error, not a
    drop: when the blocks before it render, the exception of the template
    leaves [render_message], in both notebooks and for both values of
    [DROP_INVALID_MESSAGES].  A value that is neither a string nor a mapping
    fails with [TypeError], and a mapping fails with whatever the template
    raises. *)
Theorem text_block_failure_is_raised
    (render_template : string -> list (string * Json) -> Exc string)
    (json_dumps : Json -> string) (drop : bool) (r : string) (v : Json) (e : PyError)
    (pre post : list ContentBlock) :
  rendered_text render_template r (Text v) = Raise e ->
  (forall o,
      OpenAI.render_message render_template json_dumps (mkMessage r pre) = Val (Some o) ->
      OpenAI.render_message render_template json_dumps (mkMessage r (pre ++ Text v :: post))
      = Raise e)
  /\ (forall o,
        Fireworks.render_message render_template json_dumps drop (mkMessage r pre) = Val (Some o) ->
        Fireworks.render_message render_template json_dumps drop (mkMessage r (pre ++ Text v :: post))
        = Raise e)
  /\ ((forall fields, v = JObj fields -> render_template r fields = Raise e)
      /\ ((forall fields, v <> JObj fields) -> e = TypeError)).
Proof.
  intros Hv. split; [| split].
  - intros o. unfold OpenAI.render_message. cbn [role content].
    destruct ((r =? "user") || (r =? "assistant")); [| discriminate].
    now apply openai_loop_text_failure.
  - intros o. unfold Fireworks.render_message. cbn [role content].
    destruct ((r =? "user") || (r =? "assistant")); [| discriminate].
    now apply fireworks_loop_text_failure.
  - split.
    + intros fields ->. exact Hv.
    + intros Hnot. destruct v; simpl in Hv; try discriminate Hv;
        try (now injection Hv as <-). now destruct (Hnot fields).
Qed.

(** A user message whose second text needs the missing [user] template. *)
Lemma text_block_failure_is_raised_witness :
  OpenAI.render_message Cases.render_template Demo.json_dumps
    (mkMessage "user" ([RawText "Hi"] ++ Text (JObj [("q", JStr "x")]) :: [Unknown "image"]))
  = Raise (TemplateError "template not found: user").
Proof.
  apply (proj1 (text_block_failure_is_raised Cases.render_template Demo.json_dumps true "user"
                  (JObj [("q", JStr "x")]) (TemplateError "template not found: user")
                  [RawText "Hi"] [Unknown "image"] eq_refl)
           [JObj [("role", JStr "user"); ("content", JArr [text_part "Hi"])]]).
  reflexivity.
Defined.

(** ** Further facts about the query *)

Lemma number_rows_rows (rows seen : list OpenAI.Query.FeedbackRow)
    (r : OpenAI.Query.FeedbackRow) (n : nat) :
  In (r, n) (OpenAI.Query.number_rows seen rows) -> In r rows.
Proof.
  intros H. apply number_rows_In in H. destruct H as (l1 & l2 & -> & _).
  apply in_or_app. right. now left.
Qed.

(** Once a row of a target is at least as recent as all the rows to come,
    none of these gets number 1. *)
Lemma number_rows_later_not_first (rows seen : list OpenAI.Query.FeedbackRow) (t : string)
    (r : OpenAI.Query.FeedbackRow) :
  In r seen -> OpenAI.Query.target_id r = t ->
  (forall x, In x rows -> OpenAI.Query.target_id x = t ->
             (OpenAI.Query.timestamp x <= OpenAI.Query.timestamp r)%Z) ->
  forall fr, In fr (OpenAI.Query.number_rows seen rows) ->
             (t =? OpenAI.Query.target_id (fst fr)) && (snd fr =? 1)%nat = false.
Proof.
  intros Hr Ht Hmax [x n] Hin. simpl.
  destruct (t =? OpenAI.Query.target_id x) eqn:Hx; [| reflexivity]. simpl.
  apply String.eqb_eq in Hx. apply Nat.eqb_neq. intros ->.
  pose proof (number_rows_rows _ _ _ _ Hin) as Hxin.
  apply number_rows_In in Hin. destruct Hin as (l1 & l2 & _ & Hone).
  symmetry in Hone. apply row_number_one in Hone. destruct Hone as (Hseen & _).
  specialize (Hseen r (in_or_app _ _ _ (or_introl Hr))).
  specialize (Hmax x Hxin (eq_sym Hx)).
  assert (OpenAI.Query.target_id r = OpenAI.Query.target_id x) as Heq by congruence.
  specialize (Hseen Heq). lia.
Qed.

(** At most one row of a partition has number 1. *)
Lemma number_rows_one_first (rows : list OpenAI.Query.FeedbackRow) (t : string) :
  forall seen,
    (List.length (filter (fun fr => String.eqb t (OpenAI.Query.target_id (fst fr))
                                    && Nat.eqb (snd fr) 1)
                         (OpenAI.Query.number_rows seen rows)) <= 1)%nat.
Proof.
  induction rows as [| a rest IH]; intros seen; [simpl; lia |].
  cbn [OpenAI.Query.number_rows filter fst snd].
  destruct ((t =? OpenAI.Query.target_id a)
            && (OpenAI.Query.row_number seen a rest =? 1)%nat) eqn:Hhead; [| apply IH].
  apply andb_true_iff in Hhead. destruct Hhead as (Ht & Hone).
  apply String.eqb_eq in Ht. apply Nat.eqb_eq, row_number_one in Hone.
  destruct Hone as (_ & Hrest). cbn [List.length].
  assert (List.length (filter (fun fr => (t =? OpenAI.Query.target_id (fst fr)) && (snd fr =? 1)%nat)
                              (OpenAI.Query.number_rows (seen ++ [a]) rest)) = 0%nat) as ->; [| lia].
  apply filter_length_zero.
  apply (number_rows_later_not_first rest (seen ++ [a]) t a).
  - apply in_or_app. right. now left.
  - now symmetry.
  - intros x Hx Hxt. apply Hrest; [exact Hx | congruence].
Qed.

Lemma filter_length_pos {A : Type} (p : A -> bool) (l : list A) (x : A) :
  In x l -> p x = true -> (1 <= List.length (filter p l))%nat.
Proof.
  intros Hin Hp. assert (In x (filter p l)) as H by (apply filter_In; auto).
  destruct (filter p l); [destruct H | simpl; lia].
Qed.

Section QueryCount.

Variable metric_type metric_optimize : string.
Variable FUNCTION_NAME METRIC_NAME : string.
Variable FLOAT_METRIC_THRESHOLD : Q.
Variable MAX_SAMPLES : nat.

Local Abbreviation threshold := (OpenAI.Query.threshold metric_type FLOAT_METRIC_THRESHOLD).
Local Abbreviation comparison_operator := (OpenAI.Query.comparison_operator metric_optimize).
Local Abbreviation feedback_where :=
  (OpenAI.Query.feedback_where metric_type metric_optimize METRIC_NAME FLOAT_METRIC_THRESHOLD).
Local Abbreviation subquery :=
  (OpenAI.Query.subquery metric_type metric_optimize METRIC_NAME FLOAT_METRIC_THRESHOLD).
Local Abbreviation selected :=
  (OpenAI.Query.selected metric_type metric_optimize FUNCTION_NAME METRIC_NAME
     FLOAT_METRIC_THRESHOLD).
Local Abbreviation run_query :=
  (OpenAI.Query.run_query metric_type metric_optimize FUNCTION_NAME METRIC_NAME
     FLOAT_METRIC_THRESHOLD MAX_SAMPLES).
Local Abbreviation kept :=
  (has_passing_feedback metric_type metric_optimize FUNCTION_NAME METRIC_NAME
     FLOAT_METRIC_THRESHOLD).

(** The feedback rows joined to one inference: one if a row of its target
    passes, none otherwise. *)
Lemma joined_feedback_count (feedback : list OpenAI.Query.FeedbackRow) (key : string)
    (i : OpenAI.Query.InferenceRow) :
  List.length (filter (OpenAI.Query.join_on key i) (subquery feedback))
  = if existsb (fun f => feedback_where f
                         && (OpenAI.Query.target_id f =? OpenAI.Query.join_column key i)) feedback
    then 1%nat else 0%nat.
Proof.
  destruct (existsb _ feedback) eqn:Hex.
  - apply existsb_exists in Hex. destruct Hex as (f & Hin & Hf).
    apply andb_true_iff in Hf. destruct Hf as (Hw & Ht). apply String.eqb_eq in Ht.
    destruct (subquery_first_exists metric_type metric_optimize METRIC_NAME FLOAT_METRIC_THRESHOLD
                feedback (OpenAI.Query.join_column key i)) as (f0 & Hsub & Ht0).
    { exists f. split; [exact Hin |]. split; [now apply feedback_where_passing | exact Ht]. }
    pose proof (number_rows_one_first (filter feedback_where feedback)
                  (OpenAI.Query.join_column key i) []) as Hle.
    assert (1 <= List.length (filter (OpenAI.Query.join_on key i) (subquery feedback)))%nat as Hge.
    { apply (filter_length_pos _ _ (f0, 1%nat) Hsub).
      unfold OpenAI.Query.join_on. simpl. rewrite Ht0, String.eqb_refl. reflexivity. }
    unfold OpenAI.Query.join_on, OpenAI.Query.subquery in *. lia.
  - apply filter_length_zero. intros [x n] Hx.
    unfold OpenAI.Query.join_on. simpl.
    unfold OpenAI.Query.subquery in Hx. apply number_rows_rows, filter_In in Hx.
    destruct Hx as (Hin & Hw).
    assert (feedback_where x
            && (OpenAI.Query.target_id x =? OpenAI.Query.join_column key i) = false) as Hno.
    { destruct (feedback_where x
                && (OpenAI.Query.target_id x =? OpenAI.Query.join_column key i)) eqn:E;
        [| reflexivity].
      assert (existsb (fun f => feedback_where f
                && (OpenAI.Query.target_id f =? OpenAI.Query.join_column key i)) feedback = true)
        as Hyes by (apply existsb_exists; eauto).
      congruence. }
    rewrite Hw in Hno. simpl in Hno. rewrite String.eqb_sym, Hno. reflexivity.
Qed.

Lemma selected_length (inferences : list OpenAI.Query.InferenceRow)
    (feedback : list OpenAI.Query.FeedbackRow) (key : string) :
  List.length (selected inferences feedback key)
  = List.length (filter (kept feedback key) inferences).
Proof.
  unfold OpenAI.Query.selected. rewrite length_map.
  induction inferences as [| i rest IH]; [reflexivity |].
  cbn [flat_map]. rewrite filter_app, length_app, IH. clear IH.
  cbn [filter]. unfold has_passing_feedback at 2.
  assert (filter (fun p : OpenAI.Query.InferenceRow * (OpenAI.Query.FeedbackRow * nat) =>
                    OpenAI.Query.function_name (fst p) =? FUNCTION_NAME)
                 (map (pair i) (filter (OpenAI.Query.join_on key i) (subquery feedback)))
          = if OpenAI.Query.function_name i =? FUNCTION_NAME
            then map (pair i) (filter (OpenAI.Query.join_on key i) (subquery feedback))
            else []) as ->.
  { induction (filter (OpenAI.Query.join_on key i) (subquery feedback)) as [| x l IHl]; simpl.
    - now destruct (OpenAI.Query.function_name i =? FUNCTION_NAME).
    - rewrite IHl. now destruct (OpenAI.Query.function_name i =? FUNCTION_NAME). }
  destruct (OpenAI.Query.function_name i =? FUNCTION_NAME); simpl; [| reflexivity].
  rewrite length_map, joined_feedback_count.
  now destruct (existsb _ feedback).
Qed.


End QueryCount.


(** X9.  For a metric that is not a float metric the threshold is 0.5
    whatever [FLOAT_METRIC_THRESHOLD] is, so a boolean feedback row (value 0
    or 1) of the metric is kept exactly when it is true for a metric to
    maximize, and exactly when it is false otherwise. *)
Theorem boolean_metric_keeps_matching_values
    (metric_type metric_optimize METRIC_NAME : string) (FLOAT_METRIC_THRESHOLD : Q)
    (r : OpenAI.Query.FeedbackRow) :
  metric_type <> "float" ->
  OpenAI.Query.value r == 0 \/ OpenAI.Query.value r == 1 ->
  (OpenAI.Query.feedback_where metric_type metric_optimize METRIC_NAME FLOAT_METRIC_THRESHOLD r
   = true
   <-> OpenAI.Query.metric_name r = METRIC_NAME
       /\ (if metric_optimize =? "max"
           then OpenAI.Query.value r == 1 else OpenAI.Query.value r == 0)).
Proof.
  intros Htype Hbool.
  unfold OpenAI.Query.feedback_where, OpenAI.Query.threshold, OpenAI.Query.comparison_operator.
  apply String.eqb_neq in Htype. rewrite Htype.
  rewrite andb_true_iff, String.eqb_eq.
  assert (OpenAI.Query.compare_value (if metric_optimize =? "max" then ">=" else "<=")
            (OpenAI.Query.value r) 0.5 = true
          <-> (if metric_optimize =? "max"
               then OpenAI.Query.value r == 1 else OpenAI.Query.value r == 0)) as Hcmp.
  { destruct (metric_optimize =? "max"); unfold OpenAI.Query.compare_value; simpl;
      rewrite Qle_bool_iff; destruct Hbool as [Hv | Hv]; rewrite Hv; split; intros H;
      try reflexivity; try (now apply Qle_bool_iff); try discriminate;
      try (exfalso; revert H; apply Qlt_not_le; reflexivity);
      try (exfalso; revert H; apply Qlt_not_eq; reflexivity);
      try (exfalso; symmetry in H; revert H; apply Qlt_not_eq; reflexivity). }
  now rewrite Hcmp.
Qed.

(** A false value of a metric to minimize. *)
Lemma boolean_metric_witness :
  OpenAI.Query.feedback_where "boolean" "min" "solved" (9 # 10)
    (OpenAI.Query.mkFeedbackRow "ep2" "solved" 0 6) = true
  <-> "solved" = "solved" /\ 0 == 0.
Proof.
  apply (boolean_metric_keeps_matching_values "boolean" "min" "solved" (9 # 10)
           (OpenAI.Query.mkFeedbackRow "ep2" "solved" 0 6)).
  - discriminate.
  - left. reflexivity.
Defined.

Lemma run_query_rows (metric_type metric_optimize FUNCTION_NAME METRIC_NAME : string)
    (FLOAT_METRIC_THRESHOLD : Q) (MAX_SAMPLES : nat)
    (inferences : list OpenAI.Query.InferenceRow) (feedback : list OpenAI.Query.FeedbackRow)
    (key : string) (row : OpenAI.Query.DfRow) :
  In row (OpenAI.Query.run_query metric_type metric_optimize FUNCTION_NAME METRIC_NAME
            FLOAT_METRIC_THRESHOLD MAX_SAMPLES inferences feedback key) ->
  exists i f,
    In i inferences /\ In f feedback /\
    OpenAI.Query.function_name i = FUNCTION_NAME /\
    OpenAI.Query.metric_name f = METRIC_NAME /\
    OpenAI.Query.target_id f = OpenAI.Query.join_column key i /\
    row = joined_row i f.
Proof.
  intros Hrow. unfold OpenAI.Query.run_query in Hrow.
  assert (In row (OpenAI.Query.selected metric_type metric_optimize FUNCTION_NAME METRIC_NAME
                    FLOAT_METRIC_THRESHOLD inferences feedback key)) as Hsel.
  { rewrite <- (firstn_skipn MAX_SAMPLES). apply in_or_app. left. exact Hrow. }
  apply selected_In in Hsel. destruct Hsel as (i & f & Hi & Hfn & Hsub & Ht & ->).
  apply subquery_first in Hsub. destruct Hsub as (Hin & (Hm & _) & _).
  exists i, f. repeat split; auto.
Qed.

(** ** Facts about the demonstration query *)

Lemma demonstration_row_number_one (seen rest : list Demonstrations.DemonstrationRow) (r : Demonstrations.DemonstrationRow) :
  Demonstrations.row_number seen r rest = 1%nat <->
  (forall x, In x seen -> Demonstrations.inference_id x = Demonstrations.inference_id r ->
             (Demonstrations.timestamp x < Demonstrations.timestamp r)%Z)
  /\ (forall x, In x rest -> Demonstrations.inference_id x = Demonstrations.inference_id r ->
                (Demonstrations.timestamp x <= Demonstrations.timestamp r)%Z).
Proof.
  unfold Demonstrations.row_number.
  assert (forall a b : nat, S (a + b) = 1%nat <-> a = 0%nat /\ b = 0%nat) as -> by lia.
  rewrite !filter_length_zero. split.
  - intros (Hs & Hr). split; intros x Hx Ht.
    + specialize (Hs x Hx). rewrite andb_false_iff, String.eqb_neq, Z.leb_gt in Hs.
      destruct Hs; [contradiction | lia].
    + specialize (Hr x Hx). rewrite andb_false_iff, String.eqb_neq, Z.ltb_ge in Hr.
      destruct Hr; [contradiction | lia].
  - intros (Hs & Hr). split; intros x Hx; rewrite andb_false_iff, String.eqb_neq.
    + destruct (string_dec (Demonstrations.inference_id x) (Demonstrations.inference_id r)) as [Ht | Ht];
        [right | now left].
      apply Z.leb_gt. specialize (Hs x Hx Ht). lia.
    + destruct (string_dec (Demonstrations.inference_id x) (Demonstrations.inference_id r)) as [Ht | Ht];
        [right | now left].
      apply Z.ltb_ge. specialize (Hr x Hx Ht). lia.
Qed.

Lemma demonstration_number_rows_In (rows : list Demonstrations.DemonstrationRow) :
  forall seen r n,
    In (r, n) (Demonstrations.number_rows seen rows) <->
    exists l1 l2, rows = l1 ++ r :: l2 /\ n = Demonstrations.row_number (seen ++ l1) r l2.
Proof.
  induction rows as [| a rest IH]; intros seen r n; simpl.
  - split; [intros [] | intros (l1 & l2 & H & _); now destruct l1].
  - rewrite IH. split.
    + intros [H | (l1 & l2 & -> & ->)].
      * injection H as -> <-. exists [], rest. now rewrite app_nil_r.
      * exists (a :: l1), l2. now rewrite <- app_assoc.
    + intros (l1 & l2 & H & ->). destruct l1 as [| b l1]; simpl in H; injection H as -> ->.
      * left. now rewrite app_nil_r.
      * right. exists l1, l2. now rewrite <- app_assoc.
Qed.

Lemma demonstration_first_latest_exists (rows : list Demonstrations.DemonstrationRow) (t : string) :
  (exists x, In x rows /\ Demonstrations.inference_id x = t) ->
  exists l1 r l2,
    rows = l1 ++ r :: l2 /\ Demonstrations.inference_id r = t /\
    (forall x, In x l1 -> Demonstrations.inference_id x = t ->
               (Demonstrations.timestamp x < Demonstrations.timestamp r)%Z) /\
    (forall x, In x l2 -> Demonstrations.inference_id x = t ->
               (Demonstrations.timestamp x <= Demonstrations.timestamp r)%Z).
Proof.
  induction rows as [| a rest IH]; intros (x & Hx & Ht); [destruct Hx |].
  assert ((exists y, In y rest /\ Demonstrations.inference_id y = t)
          \/ (forall y, In y rest -> Demonstrations.inference_id y <> t)) as [Hrest | Hnone].
  { clear. induction rest as [| b rest IH]; [right; intros y [] |].
    destruct (string_dec (Demonstrations.inference_id b) t) as [Hb | Hb].
    - left. exists b. split; [now left | assumption].
    - destruct IH as [(y & Hy & Hty) | Hnone].
      + left. exists y. split; [now right | assumption].
      + right. intros y [<- | Hy]; auto. }
  - destruct (IH Hrest) as (l1 & r & l2 & -> & Hr & H1 & H2).
    destruct (string_dec (Demonstrations.inference_id a) t) as [Ha | Ha].
    + destruct (Z.le_gt_cases (Demonstrations.timestamp r) (Demonstrations.timestamp a)) as [Hle | Hgt].
      * exists [], a, (l1 ++ r :: l2). repeat split; auto; [intros y [] |].
        intros y Hy Hty. apply in_app_or in Hy. destruct Hy as [Hy | [<- | Hy]].
        -- specialize (H1 y Hy Hty). lia.
        -- exact Hle.
        -- specialize (H2 y Hy Hty). lia.
      * exists (a :: l1), r, l2. repeat split; auto.
        intros y [<- | Hy] Hty; [lia | auto].
    + exists (a :: l1), r, l2. repeat split; auto.
      intros y [<- | Hy] Hty; [contradiction | auto].
  - destruct Hx as [<- | Hx]; [| now destruct (Hnone x Hx)].
    exists [], a, rest. repeat split; auto; [intros y [] |].
    intros y Hy Hty. now destruct (Hnone y Hy).
Qed.

Lemma demonstration_number_rows_rows (rows seen : list Demonstrations.DemonstrationRow)
    (r : Demonstrations.DemonstrationRow) (n : nat) :
  In (r, n) (Demonstrations.number_rows seen rows) -> In r rows.
Proof.
  intros H. apply demonstration_number_rows_In in H. destruct H as (l1 & l2 & -> & _).
  apply in_or_app. right. now left.
Qed.

Lemma demonstration_number_rows_later_not_first (rows seen : list Demonstrations.DemonstrationRow) (t : string)
    (r : Demonstrations.DemonstrationRow) :
  In r seen -> Demonstrations.inference_id r = t ->
  (forall x, In x rows -> Demonstrations.inference_id x = t ->
             (Demonstrations.timestamp x <= Demonstrations.timestamp r)%Z) ->
  forall fr, In fr (Demonstrations.number_rows seen rows) ->
             (t =? Demonstrations.inference_id (fst fr)) && (snd fr =? 1)%nat = false.
Proof.
  intros Hr Ht Hmax [x n] Hin. simpl.
  destruct (t =? Demonstrations.inference_id x) eqn:Hx; [| reflexivity]. simpl.
  apply String.eqb_eq in Hx. apply Nat.eqb_neq. intros ->.
  pose proof (demonstration_number_rows_rows _ _ _ _ Hin) as Hxin.
  apply demonstration_number_rows_In in Hin. destruct Hin as (l1 & l2 & _ & Hone).
  symmetry in Hone. apply demonstration_row_number_one in Hone. destruct Hone as (Hseen & _).
  specialize (Hseen r (in_or_app _ _ _ (or_introl Hr))).
  specialize (Hmax x Hxin (eq_sym Hx)).
  assert (Demonstrations.inference_id r = Demonstrations.inference_id x) as Heq by congruence.
  specialize (Hseen Heq). lia.
Qed.

Lemma demonstration_number_rows_one_first (rows : list Demonstrations.DemonstrationRow) (t : string) :
  forall seen,
    (List.length (filter (fun fr => String.eqb t (Demonstrations.inference_id (fst fr))
                                    && Nat.eqb (snd fr) 1)
                         (Demonstrations.number_rows seen rows)) <= 1)%nat.
Proof.
  induction rows as [| a rest IH]; intros seen; [simpl; lia |].
  cbn [Demonstrations.number_rows filter fst snd].
  destruct ((t =? Demonstrations.inference_id a)
            && (Demonstrations.row_number seen a rest =? 1)%nat) eqn:Hhead; [| apply IH].
  apply andb_true_iff in Hhead. destruct Hhead as (Ht & Hone).
  apply String.eqb_eq in Ht. apply Nat.eqb_eq, demonstration_row_number_one in Hone.
  destruct Hone as (_ & Hrest). cbn [List.length].
  assert (List.length (filter (fun fr => (t =? Demonstrations.inference_id (fst fr)) && (snd fr =? 1)%nat)
                              (Demonstrations.number_rows (seen ++ [a]) rest)) = 0%nat) as ->; [| lia].
  apply filter_length_zero.
  apply (demonstration_number_rows_later_not_first rest (seen ++ [a]) t a).
  - apply in_or_app. right. now left.
  - now symmetry.
  - intros x Hx Hxt. apply Hrest; [exact Hx | congruence].
Qed.

Section DemonstrationFacts.

Variable demonstrations : list Demonstrations.DemonstrationRow.
Variable FUNCTION_NAME : string.
Variable MAX_SAMPLES : nat.

Local Abbreviation subquery := (Demonstrations.subquery demonstrations).
Local Abbreviation selected := (Demonstrations.selected demonstrations FUNCTION_NAME).
Local Abbreviation run_query :=
  (Demonstrations.run_query demonstrations FUNCTION_NAME MAX_SAMPLES).

Lemma demonstration_subquery_first (d : Demonstrations.DemonstrationRow) :
  In (d, 1%nat) subquery -> latest_demonstration demonstrations d.
Proof.
  unfold Demonstrations.subquery. rewrite demonstration_number_rows_In.
  intros (l1 & l2 & Hsplit & Hone). symmetry in Hone.
  apply demonstration_row_number_one in Hone. destruct Hone as (H1 & H2). simpl in H1.
  split; [rewrite Hsplit; apply in_or_app; right; now left |].
  intros d' Hd' Ht. rewrite Hsplit in Hd'.
  apply in_app_or in Hd'. destruct Hd' as [Hin | [<- | Hin]].
  - specialize (H1 d' Hin Ht). lia.
  - lia.
  - exact (H2 d' Hin Ht).
Qed.

Lemma demonstration_selected_In (inferences : list OpenAI.Query.InferenceRow)
    (row : Demonstrations.DfRow) :
  In row (selected inferences) <->
  exists i d,
    In i inferences /\ OpenAI.Query.function_name i = FUNCTION_NAME /\
    In (d, 1%nat) subquery /\
    Demonstrations.inference_id d = OpenAI.Query.id i /\
    row = Demonstrations.mkDfRow (OpenAI.Query.variant_name i) (OpenAI.Query.input i)
            (OpenAI.Query.output i) (Demonstrations.value d) (OpenAI.Query.episode_id i).
Proof.
  unfold Demonstrations.selected. rewrite in_map_iff. split.
  - intros ([i [d n]] & Hrow & Hp).
    apply filter_In in Hp. destruct Hp as (Hp & Hfn). simpl in Hfn. apply String.eqb_eq in Hfn.
    apply in_flat_map in Hp. destruct Hp as (i' & Hi & Hp).
    apply in_map_iff in Hp. destruct Hp as (fr & Heq & Hfr). injection Heq as -> ->.
    apply filter_In in Hfr. destruct Hfr as (Hsub & Hon).
    unfold Demonstrations.join_on in Hon. simpl in Hon.
    apply andb_true_iff in Hon. destruct Hon as (Ht & Hn).
    apply String.eqb_eq in Ht. apply Nat.eqb_eq in Hn. subst n.
    exists i, d. repeat split; auto.
  - intros (i & d & Hi & Hfn & Hsub & Ht & ->).
    exists (i, (d, 1%nat)). split; [reflexivity |].
    apply filter_In. split; [| simpl; now apply String.eqb_eq].
    apply in_flat_map. exists i. split; [exact Hi |].
    apply in_map, filter_In. split; [exact Hsub |].
    unfold Demonstrations.join_on. simpl. rewrite Ht, String.eqb_refl. reflexivity.
Qed.

Lemma demonstration_joined_count (i : OpenAI.Query.InferenceRow) :
  List.length (filter (Demonstrations.join_on i) subquery)
  = if existsb (fun d => Demonstrations.inference_id d =? OpenAI.Query.id i) demonstrations
    then 1%nat else 0%nat.
Proof.
  destruct (existsb _ demonstrations) eqn:Hex.
  - apply existsb_exists in Hex. destruct Hex as (d & Hin & Hd). apply String.eqb_eq in Hd.
    destruct (demonstration_first_latest_exists demonstrations (OpenAI.Query.id i))
      as (l1 & r & l2 & Hs & Hr & H1 & H2); [eauto |].
    assert (In (r, 1%nat) subquery) as Hsub.
    { unfold Demonstrations.subquery. apply demonstration_number_rows_In.
      exists l1, l2. split; [exact Hs |]. symmetry. apply demonstration_row_number_one.
      simpl. rewrite Hr. split; assumption. }
    pose proof (demonstration_number_rows_one_first demonstrations (OpenAI.Query.id i) []) as Hle.
    assert (1 <= List.length (filter (Demonstrations.join_on i) subquery))%nat as Hge.
    { apply (filter_length_pos _ _ (r, 1%nat) Hsub).
      unfold Demonstrations.join_on. simpl. rewrite Hr, String.eqb_refl. reflexivity. }
    unfold Demonstrations.join_on, Demonstrations.subquery in *. lia.
  - apply filter_length_zero. intros [x n] Hx.
    unfold Demonstrations.join_on. simpl.
    unfold Demonstrations.subquery in Hx. apply demonstration_number_rows_rows in Hx.
    assert ((Demonstrations.inference_id x =? OpenAI.Query.id i) = false) as Hno.
    { destruct (Demonstrations.inference_id x =? OpenAI.Query.id i) eqn:E; [| reflexivity].
      assert (existsb (fun d => Demonstrations.inference_id d =? OpenAI.Query.id i)
                demonstrations = true) as Hyes by (apply existsb_exists; eauto).
      congruence. }
    rewrite String.eqb_sym, Hno. reflexivity.
Qed.

Lemma demonstration_selected_length (inferences : list OpenAI.Query.InferenceRow) :
  List.length (selected inferences)
  = List.length (filter (has_demonstration FUNCTION_NAME demonstrations) inferences).
Proof.
  unfold Demonstrations.selected. rewrite length_map.
  induction inferences as [| i rest IH]; [reflexivity |].
  cbn [flat_map]. rewrite filter_app, length_app, IH. clear IH.
  cbn [filter]. unfold has_demonstration at 2.
  assert (filter (fun p : OpenAI.Query.InferenceRow * (Demonstrations.DemonstrationRow * nat) =>
                    OpenAI.Query.function_name (fst p) =? FUNCTION_NAME)
                 (map (pair i) (filter (Demonstrations.join_on i) subquery))
          = if OpenAI.Query.function_name i =? FUNCTION_NAME
            then map (pair i) (filter (Demonstrations.join_on i) subquery)
            else []) as ->.
  { induction (filter (Demonstrations.join_on i) subquery) as [| x l IHl]; simpl.
    - now destruct (OpenAI.Query.function_name i =? FUNCTION_NAME).
    - rewrite IHl. now destruct (OpenAI.Query.function_name i =? FUNCTION_NAME). }
  destruct (OpenAI.Query.function_name i =? FUNCTION_NAME); simpl; [| reflexivity].
  rewrite length_map, demonstration_joined_count.
  now destruct (existsb _ demonstrations).
Qed.


End DemonstrationFacts.



(** ** Further facts about the split *)

Lemma filter_complement_length {A : Type} (p q : A -> bool) (l : list A) :
  (forall x, In x l -> p x = negb (q x)) ->
  (List.length (filter p l) + List.length (filter q l) = List.length l)%nat.
Proof.
  induction l as [| a l IH]; intros H; [reflexivity |].
  simpl. rewrite (H a (or_introl eq_refl)).
  assert (forall x, In x l -> p x = negb (q x)) as H' by (intros x Hx; apply H; now right).
  specialize (IH H'). destruct (q a); simpl; lia.
Qed.

Lemma filter_all {A : Type} (p : A -> bool) (l : list A) :
  (forall x, In x l -> p x = true) -> filter p l = l.
Proof.
  induction l as [| a l IH]; intros H; [reflexivity |].
  simpl. rewrite (H a (or_introl eq_refl)), IH; [reflexivity |].
  intros x Hx. apply H. now right.
Qed.

Lemma filter_none {A : Type} (p : A -> bool) (l : list A) :
  (forall x, In x l -> p x = false) -> filter p l = [].
Proof.
  induction l as [| a l IH]; intros H; [reflexivity |].
  simpl. rewrite (H a (or_introl eq_refl)), IH; [reflexivity |].
  intros x Hx. apply H. now right.
Qed.

Lemma isin_nil (x : string) : OpenAI.Split.isin x [] = false.
Proof. reflexivity. Qed.

Section SplitSizes.

Variable RandomState : Type.
Variable seed : Z -> RandomState.
Variable shuffle : RandomState -> list string -> list string * RandomState.
Variable VAL_FRACTION : Q.
Hypothesis shuffle_permutes :
  forall st a, Permutation a (fst (shuffle st a)).

Local Abbreviation split_cell := (OpenAI.Split.split_cell RandomState seed shuffle VAL_FRACTION).
Local Abbreviation shuffled_ids := (shuffled_ids seed shuffle).

(** X12.  The split loses nothing and duplicates nothing, whatever the
    validation fraction (also outside [0,1], where the split index is
    negative or beyond the end): the training ids followed by the validation
    ids are the shuffled distinct episode ids, and the sizes of the two data
    frames add up to the size of the data frame. *)
Theorem split_sizes_add_up (rng : RandomState) (df : list OpenAI.Split.Row) :
  let res := fst (split_cell rng df) in
  OpenAI.Split.train_episode_ids res ++ OpenAI.Split.val_episode_ids res = shuffled_ids df
  /\ (List.length (OpenAI.Split.train_df res) + List.length (OpenAI.Split.val_df res)
      = List.length df)%nat.
Proof.
  intros res. subst res.
  destruct (split_cell_cut RandomState seed shuffle VAL_FRACTION rng df)
    as (n & -> & -> & -> & -> & _).
  split; [apply firstn_skipn |].
  apply filter_complement_length. intros r Hr.
  pose proof (shuffled_ids_In RandomState seed shuffle shuffle_permutes df r Hr) as Hin.
  pose proof (shuffled_ids_NoDup RandomState seed shuffle shuffle_permutes df) as Hnd.
  rewrite <- (firstn_skipn n (shuffled_ids df)) in Hin, Hnd.
  apply in_app_or in Hin.
  destruct (OpenAI.Split.isin (OpenAI.Split.episode_id r) (skipn n (shuffled_ids df))) eqn:Hv;
    simpl.
  - apply isin_In in Hv.
    destruct (OpenAI.Split.isin (OpenAI.Split.episode_id r) (firstn n (shuffled_ids df))) eqn:Ht;
      [| reflexivity].
    apply isin_In in Ht. destruct (NoDup_app_disjoint _ _ _ Hnd Ht Hv).
  - apply isin_In. destruct Hin as [Hin | Hin]; [exact Hin |].
    apply isin_In in Hin. congruence.
Qed.


End SplitSizes.


(** Four rows of three episodes, with a validation fraction above 1. *)
Lemma split_sizes_add_up_witness :
  let res := fst (OpenAI.Split.split_cell unit Demo.seed Demo.shuffle (3 # 2) tt Demo.four_rows) in
  OpenAI.Split.train_episode_ids res ++ OpenAI.Split.val_episode_ids res = ["e1"; "e2"; "e3"]
  /\ (List.length (OpenAI.Split.train_df res) + List.length (OpenAI.Split.val_df res) = 4)%nat.
Proof.
  apply (split_sizes_add_up unit Demo.seed Demo.shuffle (3 # 2) identity_shuffle_permutes tt
           Demo.four_rows).
Defined.

(** ** Facts about reading the output of [firectl] *)

Lemma contains_append (c : ascii) (s1 s2 : string) :
  Firectl.contains c (s1 ++ s2)%string = Firectl.contains c s1 || Firectl.contains c s2.
Proof.
  induction s1 as [| a s1 IH]; simpl; [reflexivity |].
  rewrite IH. apply orb_assoc.
Qed.

Lemma contains_lstrip (c : ascii) (s : string) :
  Firectl.contains c (Firectl.lstrip s) = true -> Firectl.contains c s = true.
Proof.
  induction s as [| a s IH]; simpl; [auto |].
  destruct (Firectl.isspace a); simpl; [| auto].
  intros H. rewrite (IH H). apply orb_true_r.
Qed.

Lemma contains_rstrip (c : ascii) (s : string) :
  Firectl.contains c (Firectl.rstrip s) = true -> Firectl.contains c s = true.
Proof.
  induction s as [| a s IH]; simpl; [auto |].
  destruct (Firectl.rstrip s) as [| b r].
  - destruct (Firectl.isspace a); simpl; [discriminate |].
    rewrite orb_false_r. intros ->. reflexivity.
  - simpl in *. intros H. apply orb_true_iff in H. destruct H as [-> | H]; [reflexivity |].
    rewrite (IH H). apply orb_true_r.
Qed.

Lemma contains_strip (c : ascii) (s : string) :
  Firectl.contains c s = false -> Firectl.contains c (Firectl.strip s) = false.
Proof.
  intros H. destruct (Firectl.contains c (Firectl.strip s)) eqn:E; [| reflexivity].
  unfold Firectl.strip in E. apply contains_rstrip, contains_lstrip in E. congruence.
Qed.

Lemma lstrip_head (s : string) :
  Firectl.lstrip s = EmptyString
  \/ exists c r, Firectl.lstrip s = String c r /\ Firectl.isspace c = false.
Proof.
  induction s as [| a s IH]; simpl; [now left |].
  destruct (Firectl.isspace a) eqn:Ha; [exact IH |]. right. eauto.
Qed.

Lemma rstrip_rstrip (s : string) : Firectl.rstrip (Firectl.rstrip s) = Firectl.rstrip s.
Proof.
  induction s as [| a s IH]; simpl; [reflexivity |].
  destruct (Firectl.rstrip s) as [| b r] eqn:Hr.
  - destruct (Firectl.isspace a) eqn:Ha; simpl; [reflexivity | now rewrite Ha].
  - change (Firectl.rstrip (String a (String b r)))
      with (match Firectl.rstrip (String b r) with
            | EmptyString => if Firectl.isspace a then EmptyString else String a EmptyString
            | x => String a x
            end).
    now rewrite IH.
Qed.

(** The result of [strip] has no white space left to strip. *)
Lemma strip_strip (s : string) : Firectl.strip (Firectl.strip s) = Firectl.strip s.
Proof.
  unfold Firectl.strip.
  destruct (lstrip_head s) as [-> | (c & r & -> & Hc)]; [reflexivity |].
  assert (exists x, Firectl.rstrip (String c r) = String c x) as (x & Hx).
  { simpl. destruct (Firectl.rstrip r); [rewrite Hc |]; eauto. }
  rewrite Hx. simpl Firectl.lstrip. rewrite Hc, <- Hx. apply rstrip_rstrip.
Qed.

Lemma split_from_pieces (sep : ascii) (s : string) :
  forall cur,
    Firectl.contains sep cur = false ->
    Forall (fun p => Firectl.contains sep p = false) (Firectl.split_from sep s cur).
Proof.
  induction s as [| a s IH]; intros cur Hcur; simpl.
  - constructor; [exact Hcur | constructor].
  - destruct (Ascii.eqb a sep) eqn:Ha.
    + constructor; [exact Hcur | now apply IH].
    + apply IH. rewrite contains_append, Hcur. simpl. now rewrite Ha.
Qed.

Lemma split_from_not_nil (sep : ascii) (s : string) :
  forall cur, Firectl.split_from sep s cur <> [].
Proof.
  induction s as [| a s IH]; intros cur; simpl; [discriminate |].
  destruct (Ascii.eqb a sep); [discriminate | apply IH].
Qed.

Lemma split_from_two (sep : ascii) (s : string) :
  forall cur,
    Firectl.contains sep s = true ->
    exists x y rest, Firectl.split_from sep s cur = x :: y :: rest.
Proof.
  induction s as [| a s IH]; intros cur H; simpl in *; [discriminate |].
  destruct (Ascii.eqb a sep) eqn:Ha.
  - destruct (Firectl.split_from sep s EmptyString) as [| y rest] eqn:Hs.
    + now destruct (split_from_not_nil sep s EmptyString).
    + eauto.
  - apply IH. exact H.
Qed.

Lemma last_item_some (l : list string) :
  l <> [] -> exists x, Firectl.last_item l = Some x /\ In x l.
Proof.
  intros Hl. unfold Firectl.last_item.
  destruct (rev l) as [| x r] eqn:Hr.
  - apply (f_equal (@rev string)) in Hr. rewrite rev_involutive in Hr. now destruct Hl.
  - exists x. split; [reflexivity |]. apply in_rev. rewrite Hr. now left.
Qed.

Lemma prefix_contains (c : ascii) (p : string) :
  forall t, String.prefix p t = true -> Firectl.contains c p = true ->
            Firectl.contains c t = true.
Proof.
  induction p as [| a p IH]; intros t Hp Hc; [discriminate Hc |].
  destruct t as [| b t]; simpl in Hp; [discriminate Hp |].
  destruct (ascii_dec a b) as [<- | Hab]; [| discriminate Hp]. simpl in *.
  apply orb_true_iff in Hc. destruct Hc as [-> | Hc]; [reflexivity |].
  rewrite (IH t Hp Hc). apply orb_true_r.
Qed.

(** X14.  [get_job_id] never fails on the index [-1].  It raises
    [ValueError] exactly when no line of the output, stripped, starts with
    ["Name:"]; otherwise it returns, for the first such line, what follows
    the last slash of the line (the whole line when it has no slash),
    stripped: a string with no slash and no white space at either end. *)
Theorem get_job_id_result (stdout : string) :
  Firectl.get_job_id stdout <> Firectl.RaiseIndexError
  /\ (forall msg,
        Firectl.get_job_id stdout = Firectl.RaiseValueError msg <->
        msg = "Job ID not found in output"
        /\ Forall (fun line => String.prefix "Name:" (Firectl.strip line) = false)
             (Firectl.splitlines stdout))
  /\ (forall r,
        Firectl.get_job_id stdout = Firectl.Return r ->
        Firectl.contains "/"%char r = false /\ Firectl.strip r = r /\
        exists before line after pieces x,
          Firectl.splitlines stdout = before ++ line :: after /\
          Forall (fun l => String.prefix "Name:" (Firectl.strip l) = false) before /\
          String.prefix "Name:" (Firectl.strip line) = true /\
          Firectl.split "/"%char line = pieces ++ [x] /\
          r = Firectl.strip x).
Proof.
  unfold Firectl.get_job_id. induction (Firectl.splitlines stdout) as [| line rest IH].
  - simpl. split; [discriminate |]. split.
    + intros msg. split.
      * intros H. injection H as <-. split; [reflexivity | constructor].
      * intros (-> & _). reflexivity.
    + intros r H. discriminate H.
  - simpl. destruct IH as (IH1 & IH2 & IH3).
    destruct (String.prefix "Name:" (Firectl.strip line)) eqn:Hp.
    + destruct (last_item_some (Firectl.split "/"%char line)) as (x & Hx & Hin);
        [apply split_from_not_nil |].
      rewrite Hx. split; [discriminate |]. split.
      * intros msg. split; [discriminate |].
        intros (_ & HF). inversion HF; subst. congruence.
      * intros r H. injection H as <-.
        split; [| split; [apply strip_strip |]].
        -- apply contains_strip.
           pose proof (split_from_pieces "/"%char line EmptyString eq_refl) as HF.
           rewrite Forall_forall in HF. now apply HF.
        -- exists [], line, rest.
           unfold Firectl.last_item in Hx.
           destruct (rev (Firectl.split "/"%char line)) as [| y r] eqn:Hr; [discriminate |].
           injection Hx as ->.
           exists (rev r), x. repeat split; auto.
           apply (f_equal (@rev string)) in Hr. rewrite rev_involutive in Hr. exact Hr.
    + split; [exact IH1 |]. split.
      * intros msg. rewrite IH2. split.
        -- intros (-> & HF). split; [reflexivity | now constructor].
        -- intros (-> & HF). inversion HF; subst. auto.
      * intros r H. destruct (IH3 r H) as (Hc & Hs & before & l & after & pieces & x & Hsplit
                                            & Hb & Hl & Hpieces & ->).
        split; [exact Hc |]. split; [exact Hs |].
        exists (line :: before), l, after, pieces, x. rewrite Hsplit.
        repeat split; auto.
Qed.

Lemma field_loop_result (label msg : string) (lines : list string) :
  Firectl.contains ":"%char label = true ->
  Firectl.field_loop label msg lines <> Firectl.RaiseIndexError
  /\ (Firectl.field_loop label msg lines = Firectl.RaiseValueError msg <->
      Forall (fun line => String.prefix label (Firectl.strip line) = false) lines)
  /\ (forall r,
        Firectl.field_loop label msg lines = Firectl.Return r ->
        Firectl.contains ":"%char r = false /\ Firectl.strip r = r /\
        exists before line after x y pieces,
          lines = before ++ line :: after /\
          Forall (fun l => String.prefix label (Firectl.strip l) = false) before /\
          String.prefix label (Firectl.strip line) = true /\
          Firectl.split ":"%char line = x :: y :: pieces /\
          r = Firectl.strip y).
Proof.
  intros Hlabel. induction lines as [| line rest IH]; simpl.
  - split; [discriminate |]. split; [split; [constructor | reflexivity] |].
    intros r H. discriminate H.
  - destruct IH as (IH1 & IH2 & IH3).
    destruct (String.prefix label (Firectl.strip line)) eqn:Hp.
    + assert (Firectl.contains ":"%char line = true) as Hcolon.
      { pose proof (prefix_contains ":"%char label _ Hp Hlabel) as H.
        unfold Firectl.strip in H. now apply contains_rstrip, contains_lstrip in H. }
      destruct (split_from_two ":"%char line EmptyString Hcolon) as (x & y & pieces & Hs).
      unfold Firectl.split. rewrite Hs. simpl.
      split; [discriminate |]. split.
      * split; [discriminate |]. intros HF. inversion HF; subst. congruence.
      * intros r H. injection H as <-.
        split; [| split; [apply strip_strip |]].
        -- apply contains_strip.
           pose proof (split_from_pieces ":"%char line EmptyString eq_refl) as HF.
           rewrite Hs in HF. inversion HF as [| ? ? _ HF']; subst.
           inversion HF'; subst. assumption.
        -- exists [], line, rest, x, y, pieces. repeat split; auto.
    + split; [exact IH1 |]. split.
      * rewrite IH2. split; [now constructor | intros HF; now inversion HF].
      * intros r H. destruct (IH3 r H) as (Hc & Hs & before & l & after & x & y & pieces
                                            & Hsplit & Hb & Hl & Hpieces & ->).
        split; [exact Hc |]. split; [exact Hs |].
        exists (line :: before), l, after, x, y, pieces. rewrite Hsplit.
        repeat split; auto.
Qed.

(** X15.  [get_model_id] and [get_model_identifier] never fail on the
    index [1]: a line that starts with the label holds a colon.  They raise
    [ValueError] exactly when no line, stripped, starts with the label, and
    otherwise return, for the first such line, what stands between its
    first and its second colon, stripped: a string with no colon and no
    white space at either end. *)
Theorem model_id_lookup_result (stdout : string) :
  let spec (label : string) (out : Firectl.Outcome) :=
    out <> Firectl.RaiseIndexError
    /\ ((exists msg, out = Firectl.RaiseValueError msg) <->
        Forall (fun line => String.prefix label (Firectl.strip line) = false)
          (Firectl.splitlines stdout))
    /\ (forall r,
          out = Firectl.Return r ->
          Firectl.contains ":"%char r = false /\ Firectl.strip r = r /\
          exists before line after x y pieces,
            Firectl.splitlines stdout = before ++ line :: after /\
            Forall (fun l => String.prefix label (Firectl.strip l) = false) before /\
            String.prefix label (Firectl.strip line) = true /\
            Firectl.split ":"%char line = x :: y :: pieces /\
            r = Firectl.strip y) in
  spec "Output Model:" (Firectl.get_model_id stdout)
  /\ spec "Name:" (Firectl.get_model_identifier stdout).
Proof.
  intros spec. subst spec. cbv beta.
  unfold Firectl.get_model_id, Firectl.get_model_identifier.
  split.
  - destruct (field_loop_result "Output Model:" "Model ID not found in output"
                (Firectl.splitlines stdout) eq_refl) as (H1 & H2 & H3).
    split; [exact H1 |]. split; [| exact H3].
    rewrite <- H2. split; [| eauto].
    intros (msg & Hmsg). rewrite Hmsg. f_equal.
    clear - Hmsg. induction (Firectl.splitlines stdout) as [| l ls IH]; simpl in Hmsg.
    + now injection Hmsg.
    + destruct (String.prefix "Output Model:" (Firectl.strip l)); [| auto].
      destruct (Firectl.second_item (Firectl.split ":"%char l)); discriminate.
  - destruct (field_loop_result "Name:" "Model identifier not found in output"
                (Firectl.splitlines stdout) eq_refl) as (H1 & H2 & H3).
    split; [exact H1 |]. split; [| exact H3].
    rewrite <- H2. split; [| eauto].
    intros (msg & Hmsg). rewrite Hmsg. f_equal.
    clear - Hmsg. induction (Firectl.splitlines stdout) as [| l ls IH]; simpl in Hmsg.
    + now injection Hmsg.
    + destruct (String.prefix "Name:" (Firectl.strip l)); [| auto].
      destruct (Firectl.second_item (Firectl.split ":"%char l)); discriminate.
Qed.

(** The job id of the output of [firectl create sftj]: the [Name:] line is
    indented and ends with a blank and a carriage return. *)
Lemma get_job_id_witness :
  Firectl.contains "/"%char "j42" = false /\ Firectl.strip "j42" = "j42" /\
  exists before line after pieces x,
    Firectl.splitlines Cases.job_stdout = before ++ line :: after /\
    Forall (fun l => String.prefix "Name:" (Firectl.strip l) = false) before /\
    String.prefix "Name:" (Firectl.strip line) = true /\
    Firectl.split "/"%char line = pieces ++ [x] /\
    "j42" = Firectl.strip x.
Proof.
  apply (proj2 (proj2 (get_job_id_result Cases.job_stdout)) "j42").
  reflexivity.
Defined.

(** The model id of the output of [firectl get sftj]. *)
Lemma model_id_lookup_witness :
  Firectl.contains ":"%char "accounts/acme/models/m7" = false
  /\ Firectl.strip "accounts/acme/models/m7" = "accounts/acme/models/m7"
  /\ exists before line after x y pieces,
       Firectl.splitlines Cases.model_stdout = before ++ line :: after /\
       Forall (fun l => String.prefix "Output Model:" (Firectl.strip l) = false) before /\
       String.prefix "Output Model:" (Firectl.strip line) = true /\
       Firectl.split ":"%char line = x :: y :: pieces /\
       "accounts/acme/models/m7" = Firectl.strip y.
Proof.
  apply (proj2 (proj2 (proj1 (model_id_lookup_result Cases.model_stdout)))
           "accounts/acme/models/m7").
  reflexivity.
Defined.
